(** * Juno remote node (d-foundation/juno): reconstruction of genesis chunks,
      validator pages and verifiable-presentation transactions

    A shallow embedding of [node/remote/node.go] and [types/dchain.go].
    Go values are modelled as follows:
    - [int], [int64], [uint], [uint64] are [Z] with the 64-bit wrap-around
      written out ([GoInt]);
    - [string] is [string], [[]byte] is [list byte];
    - a Go result pair [(v, err)] is a Rocq pair whose second component is
      [option error] ([None] is a nil error); a pointer is an [option];
    - a run-time panic is an outcome of its own ([Panicked]);
    - calls that leave the process (RPC, HTTP) are recorded in a trace. *)

From Stdlib Require Import ZArith Lia Strings.Byte DecimalString.
From stdpp Require Import gmap strings list.
From Stdlib Require Import Strings.Ascii.

#[local] Open Scope Z_scope.

Abbreviation bytes := (list byte).

#[global] Instance byte_eq_dec : EqDecision byte := Byte.byte_eq_dec.

(** ** Machine integers *)

Module GoInt.

Definition two64 : Z := 2 ^ 64.
Definition two63 : Z := 2 ^ 63.

(** Conversion to an unsigned 64-bit integer: [uint(x)], [uint64(x)]. *)
Definition uint (x : Z) : Z := x mod two64.

(** Result of a signed 64-bit operation: wrap into [-2^63, 2^63). *)
Definition int (x : Z) : Z := (x + two63) mod two64 - two63.

Definition is_int (x : Z) : Prop := - two63 <= x < two63.
Definition is_uint (x : Z) : Prop := 0 <= x < two64.

End GoInt.

(** ** Bytes, [%X] and [%d] *)

Definition byte_of_Z (z : Z) : byte :=
  match Byte.of_N (Z.to_N (z mod 256)) with
  | Some b => b
  | None => x00
  end.

Definition Z_of_byte (b : byte) : Z := Z.of_N (Byte.to_N b).

Definition hex_digit (n : Z) : ascii :=
  match n with
  | 0 => "0" | 1 => "1" | 2 => "2" | 3 => "3" | 4 => "4" | 5 => "5"
  | 6 => "6" | 7 => "7" | 8 => "8" | 9 => "9" | 10 => "A" | 11 => "B"
  | 12 => "C" | 13 => "D" | 14 => "E" | _ => "F"
  end%char.

(** [fmt.Sprintf("%X", bz)] for a byte slice: two upper-case digits a byte. *)
Fixpoint fmt_X (bz : bytes) : string :=
  match bz with
  | [] => EmptyString
  | b :: rest =>
      String (hex_digit (Z_of_byte b / 16))
        (String (hex_digit (Z_of_byte b mod 16)) (fmt_X rest))
  end.

(** [%d] of an integer. *)
Definition fmt_d (z : Z) : string := NilZero.string_of_int (Z.to_int z).

(** [binary.LittleEndian.PutUint64(salt, v)] on a fresh 8-byte slice. *)
Definition PutUint64 (v : Z) : bytes :=
  map (fun i : Z => byte_of_Z (Z.shiftr v (8 * i))) [0; 1; 2; 3; 4; 5; 6; 7].

(** [binary.LittleEndian.Uint64], the inverse reading. *)
Definition Uint64 (b : bytes) : Z :=
  fold_right (fun x acc => Z_of_byte x + 256 * acc) 0 b.

(** ** SHA-256 (FIPS 180-4), as computed by [crypto/sha256.Sum256] *)

Module SHA256.

Definition w32 (x : Z) : Z := x mod 2 ^ 32.

Definition rotr (n x : Z) : Z :=
  w32 (Z.lor (Z.shiftr x n) (Z.shiftl x (32 - n))).

Definition Ch (x y z : Z) : Z :=
  Z.lxor (Z.land x y) (Z.land (Z.lxor x (2 ^ 32 - 1)) z).
Definition Maj (x y z : Z) : Z :=
  Z.lxor (Z.lxor (Z.land x y) (Z.land x z)) (Z.land y z).
Definition Sigma0 (x : Z) : Z :=
  Z.lxor (Z.lxor (rotr 2 x) (rotr 13 x)) (rotr 22 x).
Definition Sigma1 (x : Z) : Z :=
  Z.lxor (Z.lxor (rotr 6 x) (rotr 11 x)) (rotr 25 x).
Definition sigma0 (x : Z) : Z :=
  Z.lxor (Z.lxor (rotr 7 x) (rotr 18 x)) (Z.shiftr x 3).
Definition sigma1 (x : Z) : Z :=
  Z.lxor (Z.lxor (rotr 17 x) (rotr 19 x)) (Z.shiftr x 10).

(** The first primes. *)
Definition is_prime (p : nat) : bool :=
  forallb (fun d => negb (p mod d =? 0)%nat) (seq 2 (p - 2)).
Definition primes (n : nat) : list Z :=
  Z.of_nat <$> take n (filter (fun p => is_prime p = true) (seq 2 310)).

(** Integer cube root by bisection on the bits of the root. *)
Fixpoint cbrt_bits (bits : nat) (n r : Z) : Z :=
  match bits with
  | O => r
  | S b =>
      let c := r + 2 ^ Z.of_nat b in
      if c * c * c <=? n then cbrt_bits b n c else cbrt_bits b n r
  end.

(** Round constants: the first 32 bits of the fractional parts of the cube
    roots of the first 64 primes. *)
Definition K : list Z :=
  Eval vm_compute in
    (fun p => w32 (cbrt_bits 40 (p * 2 ^ 96) 0)) <$> primes 64.

(** Initial hash value: the first 32 bits of the fractional parts of the
    square roots of the first 8 primes. *)
Definition H0 : list Z :=
  Eval vm_compute in (fun p => w32 (Z.sqrt (p * 2 ^ 64))) <$> primes 8.

(** Big-endian bytes of a [n]-byte unsigned integer. *)
Fixpoint be_bytes (n : nat) (v : Z) : bytes :=
  match n with
  | O => []
  | S m => be_bytes m (Z.shiftr v 8) ++ [byte_of_Z v]
  end.

Definition be_word (b : bytes) : Z :=
  fold_left (fun acc x => 256 * acc + Z_of_byte x) b 0.

(** Padding: one [0x80], zeros up to 56 modulo 64, the bit length on 8 bytes. *)
Definition pad (msg : bytes) : bytes :=
  let len := Z.of_nat (length msg) in
  let zeros := Z.to_nat ((55 - len) mod 64) in
  msg ++ [x80] ++ repeat x00 zeros ++ be_bytes 8 (8 * len).

Fixpoint words (n : nat) (b : bytes) : list Z :=
  match n with
  | O => []
  | S m => be_word (take 4 b) :: words m (drop 4 b)
  end.

(** Message schedule: [w] holds the words so far, most recent first. *)
Fixpoint schedule (n : nat) (w : list Z) : list Z :=
  match n with
  | O => w
  | S m =>
      let x := w32 (sigma1 (nth 1 w 0) + nth 6 w 0
                    + sigma0 (nth 14 w 0) + nth 15 w 0) in
      schedule m (x :: w)
  end.

Definition round (s : list Z) (kw : Z * Z) : list Z :=
  match s with
  | [a; b; c; d; e; f; g; h] =>
      let t1 := h + Sigma1 e + Ch e f g + fst kw + snd kw in
      let t2 := Sigma0 a + Maj a b c in
      [w32 (t1 + t2); a; b; c; w32 (d + t1); e; f; g]
  | _ => s
  end.

Definition compress (h : list Z) (block : bytes) : list Z :=
  let w := rev (schedule 48 (rev (words 16 block))) in
  let s := fold_left round (combine K w) h in
  map (fun p : Z * Z => w32 (fst p + snd p)) (combine h s).

Fixpoint blocks (n : nat) (h : list Z) (b : bytes) : list Z :=
  match n with
  | O => h
  | S m => blocks m (compress h (take 64 b)) (drop 64 b)
  end.

Definition Sum256 (msg : bytes) : bytes :=
  let p := pad msg in
  concat (map (be_bytes 4) (blocks (length p / 64)%nat H0 p)).

End SHA256.

(** ** Errors, panics and outcomes *)

(** A Go [error]: a message, and for [%w] the error it wraps. *)
Inductive error : Type :=
| errorString (msg : string)
| wrapError (msg : string) (err : error).

Definition Error (e : error) : string :=
  match e with
  | errorString msg => msg
  | wrapError msg _ => msg
  end.

Inductive panic : Type :=
| NilDereference
| IndexOutOfRange (index len : Z)
| InterfaceConversion.

Inductive outcome (A : Type) : Type :=
| Returned (a : A)
| Panicked (p : panic)
| OutOfFuel.
Arguments Returned {A} a.
Arguments Panicked {A} p.
Arguments OutOfFuel {A}.

(** Calls that leave the process, in the order they are issued. *)
Inductive event : Type :=
| EvGenesisChunked (id : Z)
| EvValidators (height page perPage : Z)
| EvHttpGet (url : string).

Definition M (A : Type) : Type := list event * outcome A.

Definition ret {A} (a : A) : M A := ([], Returned a).
Definition throw {A} (p : panic) : M A := ([], Panicked p).
Definition call {A} (ev : event) (a : A) : M A := ([ev], Returned a).

Definition bind {A B} (m : M A) (k : A -> M B) : M B :=
  match m with
  | (t, Returned a) => let (t', o) := k a in (t ++ t', o)
  | (t, Panicked p) => (t, Panicked p)
  | (t, OutOfFuel) => (t, OutOfFuel)
  end.

Notation "'do' x <- m ; k" := (bind m (fun x => k))
  (at level 10, x name, m at level 100, k at level 200).
Notation "'do' ' p <- m ; k" := (bind m (fun x => match x with p => k end))
  (at level 10, p pattern, m at level 100, k at level 200).

(** ** Values of [interface{}] produced by [encoding/json] *)

#[warnings="-register-all"]
Inductive JSON : Type :=
| JNull
| JBool (b : bool)
| JNumber (lit : string)
| JString (s : string)
| JArray (elems : list JSON)
| JObject (fields : list (string * JSON)).

(** ** types/dchain.go *)

Definition VP_TYPE : string := "/dchain.tx.v1.MsgVerifiablePresentation".
Definition VP_MSG_INDEX : Z := 0.

Record VPStandardMessage : Type := {
  VPStandardMessage_Index : Z;
  VPStandardMessage_Type : string;
  VPStandardMessage_Bytes : bytes
}.

Definition NewVPStandardMessage (bz : bytes) : VPStandardMessage :=
  {| VPStandardMessage_Index := VP_MSG_INDEX;
     VPStandardMessage_Type := VP_TYPE;
     VPStandardMessage_Bytes := bz |}.

Definition GetType (msg : VPStandardMessage) : string := VPStandardMessage_Type msg.
Definition GetIndex (msg : VPStandardMessage) : Z := VPStandardMessage_Index msg.
Definition GetBytes (msg : VPStandardMessage) : bytes := VPStandardMessage_Bytes msg.

(** ** Records exchanged with the node and built by [HandleVPTxs]

    Only the fields the code reads or writes are kept; a field the code
    leaves at its zero value is left out. *)

Record ResultGenesisChunk : Type := {
  ChunkNumber : Z;
  TotalChunks : Z;
  Data : string
}.

Record Validator : Type := {
  Validator_Address : bytes;
  Validator_PubKey : bytes;
  Validator_VotingPower : Z;
  Validator_ProposerPriority : Z
}.

Record ResultValidators : Type := {
  BlockHeight : Z;
  Validators : list Validator;
  Count : Z;
  Total : Z
}.

Record Header : Type := {
  Height : Z;
  ProposerAddress : bytes
}.

Record Block : Type := {
  Block_Header : Header;
  Block_Txs : list bytes
}.

Record ResultBlock : Type := {
  ResultBlock_Block : Block
}.

Record Any : Type := {
  TypeUrl : string;
  Value : bytes
}.

Record sdktx_TxBody : Type := {
  sdktx_Memo : string;
  sdktx_Messages : list Any
}.

Record sdktx_Tx : Type := {
  sdktx_Body : option sdktx_TxBody;
  sdktx_Signatures : list bytes
}.

Record TxBody : Type := {
  TxBody_TxBody : option sdktx_TxBody;
  TxBody_TimeoutHeight : Z;
  TxBody_Messages : list VPStandardMessage
}.

Record Fee : Type := {
  Fee_Amount : list (string * Z);
  Fee_GasLimit : Z
}.

Record AuthInfo : Type := {
  AuthInfo_SignerInfos : list bytes;
  AuthInfo_Fee : option Fee
}.

Record Tx : Type := {
  Tx_Tx : option sdktx_Tx;
  Tx_Body : option TxBody;
  Tx_AuthInfo : option AuthInfo
}.

Record EventAttribute : Type := {
  Key : string;
  EventAttribute_Value : string
}.

Record Event : Type := {
  Event_Type : string;
  Attributes : list EventAttribute
}.

Record sdk_TxResponse : Type := {
  sdk_Tx : option Any;
  sdk_Events : list Event;
  sdk_Height : Z;
  TxHash : string
}.

Record TxResponse : Type := {
  TxResponse_TxResponse : option sdk_TxResponse;
  TxResponse_Height : Z;
  TxResponse_GasWanted : Z;
  TxResponse_GasUsed : Z;
  TxResponse_Tx : option Tx
}.

Record Transaction : Type := {
  Transaction_TxResponse : option TxResponse;
  Transaction_Tx : option Tx
}.

Record CombinedFormatForPresentation : Type := {
  SDJWT : string;
  Disclosures : list string;
  HolderVerification : string
}.

Record Response : Type := {
  StatusCode : Z;
  Body : bytes * option error   (* what [io.ReadAll(resp.Body)] yields *)
}.

Definition StatusOK : Z := 200.

(** ** What lies outside the package

    The RPC client of the node, the HTTP endpoint and the library calls
    whose result the code only passes on.  Every theorem below holds for
    any behaviour of these. *)

Record Env : Type := {
  client_GenesisChunked : Z -> option ResultGenesisChunk * option error;
  client_Validators : Z -> Z -> Z -> option ResultValidators * option error;
  http_Get : string -> option Response * option error;
  base64_StdEncoding_DecodeString : string -> bytes * option error;
  base64_RawURLEncoding_DecodeString : string -> bytes * option error;
  json_Unmarshal_slice : bytes -> list JSON * option error;
  json_Unmarshal_Transaction : bytes -> option Transaction * option error;
  json_Marshal : gmap string JSON -> bytes * option error;
  strings_TrimSpace : string -> string;
  ParseCombinedFormatForPresentation : string -> CombinedFormatForPresentation;
  ValAddressFromHex : string -> bytes * option error;
  ValAddress_String : bytes -> string
}.

Record Node : Type := {
  txServiceAPI : string
}.

(** ** node/remote/node.go *)

Section Remote.

Context (E : Env).

(** [getGenesisChunksStartingFrom]: the recursion of the source, with
    [fuel] bounding its depth.  [res] is a pointer: the source reads
    [res.TotalChunks] also on the error path. *)
Fixpoint getGenesisChunksStartingFrom (fuel : nat) (cp : Node) (id : Z)
  : M (bytes * option error) :=
  match fuel with
  | O => ([], OutOfFuel)
  | S fuel' =>
      do '(res, err) <- call (EvGenesisChunked id) (client_GenesisChunked E id);
      match err with
      | Some _ =>
          match res with
          | None => throw NilDereference
          | Some res =>
              ret ([], Some (errorString
                ("error while getting genesis chunk " +:+ fmt_d id
                 +:+ " out of " +:+ fmt_d (TotalChunks res))))
          end
      | None =>
          match res with
          | None => throw NilDereference
          | Some res =>
              let '(bz, err) := base64_StdEncoding_DecodeString E (Data res) in
              match err with
              | Some _ =>
                  ret ([], Some (errorString
                    ("error while decoding genesis chunk " +:+ fmt_d id
                     +:+ " out of " +:+ fmt_d (TotalChunks res))))
              | None =>
                  if id =? GoInt.uint (GoInt.int (TotalChunks res - 1)) then
                    ret (bz, None)
                  else
                    do '(nextChunk, err) <-
                      getGenesisChunksStartingFrom fuel' cp (GoInt.uint (id + 1));
                    match err with
                    | Some err => ret ([], Some err)
                    | None => ret (bz ++ nextChunk, None)
                    end
              end
          end
      end
  end.

(** The body of the [for !stop] loop of [Validators]; [fuel] bounds the
    number of iterations. *)
Fixpoint Validators_loop (fuel : nat) (height : Z) (vals : ResultValidators)
    (page perPage : Z) : M (option ResultValidators * option error) :=
  match fuel with
  | O => ([], OutOfFuel)
  | S fuel' =>
      do '(result, err) <-
        call (EvValidators height page perPage)
             (client_Validators E height page perPage);
      match err with
      | Some err => ret (None, Some err)
      | None =>
          match result with
          | None => throw NilDereference
          | Some result =>
              let vals :=
                {| BlockHeight := BlockHeight vals;
                   Validators := Validators vals ++ Validators result;
                   Count := GoInt.int (Count vals + Count result);
                   Total := Total result |} in
              let page := GoInt.int (page + 1) in
              let stop := Count vals =? Total vals in
              if stop then ret (Some vals, None)
              else Validators_loop fuel' height vals page perPage
          end
      end
  end.

Definition Node_Validators (fuel : nat) (cp : Node) (height : Z)
  : M (option ResultValidators * option error) :=
  let vals := {| BlockHeight := height; Validators := []; Count := 0; Total := 0 |} in
  let page := 1 in
  let perPage := 100 in
  Validators_loop fuel height vals page perPage.

(** [Tx]: the by-hash lookup over HTTP. *)
Definition Node_Tx (cp : Node) (hash : string) : M (option Transaction * option error) :=
  let url := txServiceAPI cp +:+ "/cosmos/tx/v1beta1/txs/" +:+ hash in
  do '(resp, err) <- call (EvHttpGet url) (http_Get E url);
  match err with
  | Some err => ret (None, Some err)
  | None =>
      match resp with
      | None => throw NilDereference
      | Some resp =>
          if negb (StatusCode resp =? StatusOK) then
            ret (None, Some (errorString
              ("request failed with status code: " +:+ fmt_d (StatusCode resp))))
          else
            let '(body, err) := Body resp in
            match err with
            | Some _ => ret (None, Some (errorString "error reading response body"))
            | None =>
                let '(convTx, err) := json_Unmarshal_Transaction E body in
                match err with
                | Some err =>
                    ret (None, Some (errorString
                      ("error converting transaction: " +:+ Error err)))
                | None => ret (convTx, None)
                end
            end
      end
  end.

(** The loop of [HandleVPTxs] over [parsed.Disclosures]: [inl] is the map
    when the loop runs to its end, [inr] the error of an early return. *)
Fixpoint compile_disclosures (disclosures : list string)
    (disclosedJson : gmap string JSON) : M (gmap string JSON + error) :=
  match disclosures with
  | [] => ret (inl disclosedJson)
  | disclosure :: rest =>
      let '(decoded, err) := base64_RawURLEncoding_DecodeString E disclosure in
      match err with
      | Some err =>
          ret (inr (wrapError ("failed to decode disclosure: " +:+ Error err) err))
      | None =>
          let '(disclosureArr, err) := json_Unmarshal_slice E decoded in
          match err with
          | Some err =>
              ret (inr (wrapError
                ("failed to unmarshal disclosure array: " +:+ Error err) err))
          | None =>
              match disclosureArr !! 1%nat with
              | None => throw (IndexOutOfRange 1 (Z.of_nat (length disclosureArr)))
              | Some (JString name) =>
                  match disclosureArr !! 2%nat with
                  | None => throw (IndexOutOfRange 2 (Z.of_nat (length disclosureArr)))
                  | Some value =>
                      compile_disclosures rest (<[name := value]> disclosedJson)
                  end
              | Some _ => throw InterfaceConversion
              end
          end
      end
  end.

(** [Tx.Hash()] of a raw transaction, and [HexBytes.String()]. *)
Definition Tx_Hash (tx : bytes) : bytes := SHA256.Sum256 tx.
Definition HexBytes_String (b : bytes) : string := fmt_X b.

(** The first part of [HandleVPTxs], up to "Add Type into message": the
    map [disclosedJson] as it is handed to [json.Marshal], or the error
    of an early return. *)
Definition disclosedJson_of (txn : bytes) : M (gmap string JSON + error) :=
  let disclosedJson : gmap string JSON := ∅ in
  let parsed :=
    ParseCombinedFormatForPresentation E
      (strings_TrimSpace E (String.string_of_list_byte txn)) in
  do r <- compile_disclosures (Disclosures parsed) disclosedJson;
  match r with
  | inr err => ret (inr err)
  | inl disclosedJson => ret (inl (<["@type" := JString VP_TYPE]> disclosedJson))
  end.

Definition HandleVPTxs (cp : Node) (txn : bytes) (block : ResultBlock)
  : M (option Transaction * option error) :=
  let header := Block_Header (ResultBlock_Block block) in
  do r <- disclosedJson_of txn;
  match r with
  | inr err => ret (None, Some err)
  | inl disclosedJson =>
      let '(jsonBytes, err) := json_Marshal E disclosedJson in
      match err with
      | Some err => ret (None, Some err)
      | None =>
          let txAny := {| TypeUrl := VP_TYPE; Value := jsonBytes |} in
          let sdkTxBody :=
            {| sdktx_Memo := "Verifiable Presentation";
               sdktx_Messages := [txAny] |} in
          let txBody :=
            {| TxBody_TxBody := Some sdkTxBody;
               TxBody_TimeoutHeight := GoInt.uint (Height header);
               TxBody_Messages := [NewVPStandardMessage jsonBytes] |} in
          let sdkTx :=
            {| sdktx_Body := Some sdkTxBody; sdktx_Signatures := [] |} in
          let tx :=
            {| Tx_Tx := Some sdkTx;
               Tx_Body := Some txBody;
               Tx_AuthInfo :=
                 Some {| AuthInfo_SignerInfos := [];
                         AuthInfo_Fee :=
                           Some {| Fee_Amount := []; Fee_GasLimit := 0 |} |} |} in
          let salt := PutUint64 (GoInt.uint (Height header)) in
          let finalBytes := jsonBytes ++ salt in
          let hash := SHA256.Sum256 finalBytes in
          let '(valAddr, err) :=
            ValAddressFromHex E (HexBytes_String (ProposerAddress header)) in
          match err with
          | Some err => ret (None, Some err)
          | None =>
              let sdkTxResponse :=
                {| sdk_Tx := Some txAny;
                   sdk_Events :=
                     [ {| Event_Type := "message";
                          Attributes :=
                            [ {| Key := "proposer";
                                 EventAttribute_Value :=
                                   ValAddress_String E valAddr |} ] |} ];
                   sdk_Height := Height header;
                   TxHash := fmt_X hash |} in
              let txResponse :=
                {| TxResponse_TxResponse := Some sdkTxResponse;
                   TxResponse_Height := GoInt.uint (Height header);
                   TxResponse_GasWanted := GoInt.uint 0;
                   TxResponse_GasUsed := GoInt.uint 0;
                   TxResponse_Tx := Some tx |} in
              ret (Some {| Transaction_TxResponse := Some txResponse;
                           Transaction_Tx := Some tx |}, None)
          end
      end
  end.

(** The [for i, tmTx := range block.Block.Txs] loop of [Txs]: [i] is the
    position reached, [txResponses] the slice being filled. *)
Fixpoint Txs_loop (cp : Node) (block : ResultBlock) (i : nat) (txs : list bytes)
    (txResponses : list (option Transaction))
  : M (list (option Transaction) * option error) :=
  match txs with
  | [] => ret (txResponses, None)
  | tmTx :: rest =>
      do '(txResponse, err) <-
        (if (i =? 0)%nat then HandleVPTxs cp tmTx block
         else Node_Tx cp (fmt_X (Tx_Hash tmTx)));
      match err with
      | Some err => ret ([], Some err)
      | None => Txs_loop cp block (S i) rest (<[i := txResponse]> txResponses)
      end
  end.

Definition Txs (cp : Node) (block : ResultBlock)
  : M (list (option Transaction) * option error) :=
  let txs := Block_Txs (ResultBlock_Block block) in
  let txResponses := replicate (length txs) None in
  Txs_loop cp block 0 txs txResponses.

End Remote.

(** ** Reading the result of [HandleVPTxs] *)

Definition Transaction_sdkTxResponse (t : Transaction) : option sdk_TxResponse :=
  match Transaction_TxResponse t with
  | Some txResponse => TxResponse_TxResponse txResponse
  | None => None
  end.

(** The transaction identifier: [TxResponse.TxResponse.TxHash]. *)
Definition Transaction_TxHash (t : Transaction) : option string :=
  TxHash <$> Transaction_sdkTxResponse t.

(** The serialized claim set carried by the message: [TxResponse.Tx.Value]. *)
Definition Transaction_payload (t : Transaction) : option bytes :=
  match Transaction_sdkTxResponse t with
  | Some sdkTxResponse => Value <$> sdk_Tx sdkTxResponse
  | None => None
  end.

(** [block.Block.Header.Height]. *)
Definition block_height (block : ResultBlock) : Z :=
  Height (Block_Header (ResultBlock_Block block)).

(** [finalBytes] of [HandleVPTxs]: the serialized claim set followed by the
    salt, the height as 8 little-endian bytes. *)
Definition finalBytes_of (jsonBytes : bytes) (height : Z) : bytes :=
  jsonBytes ++ PutUint64 (GoInt.uint height).

(** A disclosure token the loop of [HandleVPTxs] gets past: it decodes to
    an array whose elements 1 and 2 exist, element 1 being the string
    [entry.1] and element 2 the value [entry.2]. *)
Definition disclosure_entry (E : Env) (disclosure : string)
    (entry : string * JSON) : Prop :=
  ∃ decoded disclosureArr,
    base64_RawURLEncoding_DecodeString E disclosure = (decoded, None)
    ∧ json_Unmarshal_slice E decoded = (disclosureArr, None)
    ∧ disclosureArr !! 1%nat = Some (JString entry.1)
    ∧ disclosureArr !! 2%nat = Some entry.2.

(** The disclosure tokens of a raw transaction. *)
Definition disclosures_of (E : Env) (txn : bytes) : list string :=
  Disclosures (ParseCombinedFormatForPresentation E
                 (strings_TrimSpace E (String.string_of_list_byte txn))).

(** The URL [Tx] asks for a raw transaction of the block. *)
Definition lookup_url_of (cp : Node) (tmTx : bytes) : string :=
  txServiceAPI cp +:+ "/cosmos/tx/v1beta1/txs/" +:+ fmt_X (Tx_Hash tmTx).

(** The lookup of a raw transaction succeeds with result [t]: one request,
    for the URL of its hash, and a nil error. *)
Definition lookup_ok (E : Env) (cp : Node) (tmTx : bytes)
    (t : option Transaction) : Prop :=
  Node_Tx E cp (fmt_X (Tx_Hash tmTx))
  = ([EvHttpGet (lookup_url_of cp tmTx)], Returned (t, None)).

(** The number of pages of [perPage] entries that hold [total] entries. *)
Definition ceil_div (total perPage : Z) : Z := (total + perPage - 1) / perPage.

(** The number of iterations of the loop of [Validators] for a set of
    [total] validators: one a page, and one for an empty set. *)
Definition page_count (total : Z) : nat := Z.to_nat (Z.max 1 (ceil_div total 100)).

(** ** Reference models of the library calls

    Executable models of the calls collected in [Env], used to run the
    code on concrete inputs.  They cover the inputs of the examples below
    and answer with an error outside what they model. *)

Module Ref.

(** *** [encoding/base64] *)

Definition in_range (lo hi b : byte) : bool :=
  (Z_of_byte lo <=? Z_of_byte b) && (Z_of_byte b <=? Z_of_byte hi).

(** Value of a character in the alphabet whose last two characters are
    [c62] and [c63]. *)
Definition sextet (c62 c63 b : byte) : option Z :=
  if in_range "A" "Z" b then Some (Z_of_byte b - 65)
  else if in_range "a" "z" b then Some (Z_of_byte b - 97 + 26)
  else if in_range "0" "9" b then Some (Z_of_byte b - 48 + 52)
  else if decide (b = c62) then Some 62
  else if decide (b = c63) then Some 63
  else None.

Definition pad_char : byte := "=".

(** Groups of four characters; [padded] tells whether the last group is
    filled with [=] (StdEncoding) or left short (RawURLEncoding). *)
Fixpoint decode_groups (c62 c63 : byte) (padded : bool) (s : bytes)
  : option bytes :=
  let sx := sextet c62 c63 in
  match s with
  | [] => Some []
  | [a; b] =>
      if padded then None
      else
        x ← sx a; y ← sx b;
        Some [byte_of_Z (x * 4 + y / 16)]
  | [a; b; c] =>
      if padded then None
      else
        x ← sx a; y ← sx b; z ← sx c;
        Some [byte_of_Z (x * 4 + y / 16); byte_of_Z (y * 16 + z / 4)]
  | a :: b :: c :: d :: rest =>
      if padded && bool_decide (rest = []) && bool_decide (d = pad_char) then
        if bool_decide (c = pad_char) then
          x ← sx a; y ← sx b;
          Some [byte_of_Z (x * 4 + y / 16)]
        else
          x ← sx a; y ← sx b; z ← sx c;
          Some [byte_of_Z (x * 4 + y / 16); byte_of_Z (y * 16 + z / 4)]
      else
        x ← sx a; y ← sx b; z ← sx c; w ← sx d;
        tl ← decode_groups c62 c63 padded rest;
        Some (byte_of_Z (x * 4 + y / 16) :: byte_of_Z (y * 16 + z / 4)
              :: byte_of_Z (z * 64 + w) :: tl)
  | _ => None
  end.

(** Line breaks are skipped by the Go decoders. *)
Definition strip_newlines (s : bytes) : bytes :=
  filter (fun b => b ≠ "010"%byte ∧ b ≠ "013"%byte) s.

Definition corrupt_input : error := errorString "illegal base64 data".

Definition StdEncoding_DecodeString (s : string) : bytes * option error :=
  match decode_groups "+" "/" true
          (strip_newlines (String.list_byte_of_string s)) with
  | Some bz => (bz, None)
  | None => ([], Some corrupt_input)
  end.

Definition RawURLEncoding_DecodeString (s : string) : bytes * option error :=
  match decode_groups "-" "_" false
          (strip_newlines (String.list_byte_of_string s)) with
  | Some bz => (bz, None)
  | None => ([], Some corrupt_input)
  end.

(** *** [strings] and the combined presentation format *)

Definition is_space (c : ascii) : bool :=
  let n := Z.of_N (N_of_ascii c) in
  (n =? 32) || ((9 <=? n) && (n <=? 13)).

Fixpoint trim_left (s : string) : string :=
  match s with
  | String c rest => if is_space c then trim_left rest else s
  | EmptyString => s
  end.

(** White space of the ASCII range; the two-byte spaces of Unicode are
    left in place. *)
Definition TrimSpace (s : string) : string :=
  String.rev (trim_left (String.rev (trim_left s))).

(** [strings.Split(s, sep)] for a one-character separator. *)
Fixpoint split_on (sep : ascii) (s : string) : list string :=
  match s with
  | EmptyString => [EmptyString]
  | String c rest =>
      if decide (c = sep) then EmptyString :: split_on sep rest
      else
        match split_on sep rest with
        | hd :: tl => String c hd :: tl
        | [] => [String c EmptyString]
        end
  end.

Fixpoint contains_char (c : ascii) (s : string) : bool :=
  match s with
  | EmptyString => false
  | String d rest => bool_decide (c = d) || contains_char c rest
  end.

(** The parts between [~]: the first is the SD-JWT, the last the holder
    binding when it is a JWT, the ones in between the disclosures. *)
Definition ParseCombined (s : string) : CombinedFormatForPresentation :=
  let parts := split_on "~" s in
  let final := List.last parts EmptyString in
  {| SDJWT := hd EmptyString parts;
     Disclosures := tail (removelast parts);
     HolderVerification := if contains_char "." final then final else EmptyString |}.

(** *** [encoding/json]

    The subset read: [null], [true], [false], integer literals, strings
    with the two-character escapes, arrays and objects.  Anything else
    (fractions, exponents, [\u] escapes) is answered with an error. *)

Definition dquote : byte := x22.

Definition is_ws (b : byte) : bool :=
  bool_decide (b = " "%byte) || bool_decide (b = "009"%byte)
  || bool_decide (b = "010"%byte) || bool_decide (b = "013"%byte).

Fixpoint skip_ws (s : bytes) : bytes :=
  match s with
  | b :: rest => if is_ws b then skip_ws rest else s
  | [] => []
  end.

Definition is_digit (b : byte) : bool := in_range "0" "9" b.

Fixpoint take_digits (s : bytes) : bytes * bytes :=
  match s with
  | b :: rest =>
      if is_digit b then let (ds, r) := take_digits rest in (b :: ds, r)
      else ([], s)
  | [] => ([], [])
  end.

Definition ends_number (s : bytes) : bool :=
  match s with
  | b :: _ => negb (bool_decide (b = "."%byte) || bool_decide (b = "e"%byte)
                    || bool_decide (b = "E"%byte))
  | [] => true
  end.

(** An integer literal without superfluous leading zero. *)
Definition parse_int (s : bytes) : option (bytes * bytes) :=
  let (sign, s1) :=
    match s with
    | b :: rest => if bool_decide (b = "-"%byte) then ([b], rest) else ([], s)
    | [] => ([], s)
    end in
  let (ds, r) := take_digits s1 in
  match ds with
  | [] => None
  | d :: more =>
      if bool_decide (d = "0"%byte) && negb (bool_decide (more = [])) then None
      else if ends_number r then Some (sign ++ ds, r) else None
  end.

Definition unescape (b : byte) : option byte :=
  if bool_decide (b = dquote) then Some dquote
  else if bool_decide (b = "\"%byte) then Some "\"%byte
  else if bool_decide (b = "/"%byte) then Some "/"%byte
  else if bool_decide (b = "b"%byte) then Some "008"%byte
  else if bool_decide (b = "f"%byte) then Some "012"%byte
  else if bool_decide (b = "n"%byte) then Some "010"%byte
  else if bool_decide (b = "r"%byte) then Some "013"%byte
  else if bool_decide (b = "t"%byte) then Some "009"%byte
  else None.

(** The characters of a string literal after its opening quote. *)
Fixpoint parse_chars (s : bytes) : option (bytes * bytes) :=
  match s with
  | [] => None
  | b :: rest =>
      if bool_decide (b = dquote) then Some ([], rest)
      else if bool_decide (b = "\"%byte) then
        match rest with
        | e :: rest' =>
            c ← unescape e;
            '(cs, r) ← parse_chars rest';
            Some (c :: cs, r)
        | [] => None
        end
      else if Z_of_byte b <? 32 then None
      else
        '(cs, r) ← parse_chars rest;
        Some (b :: cs, r)
  end.

Definition starts_with (p s : bytes) : option bytes :=
  if bool_decide (take (length p) s = p) then Some (drop (length p) s) else None.

Definition lit (s : string) : bytes := String.list_byte_of_string s.

Fixpoint parse_value (fuel : nat) (s : bytes) : option (JSON * bytes) :=
  match fuel with
  | O => None
  | S fuel' =>
      match skip_ws s with
      | [] => None
      | b :: rest =>
          if bool_decide (b = dquote) then
            '(cs, r) ← parse_chars rest;
            Some (JString (String.string_of_list_byte cs), r)
          else if bool_decide (b = "["%byte) then
            match skip_ws rest with
            | c :: r =>
                if bool_decide (c = "]"%byte) then Some (JArray [], r)
                else
                  '(vs, r') ← parse_elems fuel' rest;
                  Some (JArray vs, r')
            | [] => None
            end
          else if bool_decide (b = "{"%byte) then
            match skip_ws rest with
            | c :: r =>
                if bool_decide (c = "}"%byte) then Some (JObject [], r)
                else
                  '(fs, r') ← parse_members fuel' rest;
                  Some (JObject fs, r')
            | [] => None
            end
          else
            match starts_with (lit "null") (b :: rest),
                  starts_with (lit "true") (b :: rest),
                  starts_with (lit "false") (b :: rest) with
            | Some r, _, _ => Some (JNull, r)
            | _, Some r, _ => Some (JBool true, r)
            | _, _, Some r => Some (JBool false, r)
            | _, _, _ =>
                '(n, r) ← parse_int (b :: rest);
                Some (JNumber (String.string_of_list_byte n), r)
            end
      end
  end
with parse_elems (fuel : nat) (s : bytes) : option (list JSON * bytes) :=
  match fuel with
  | O => None
  | S fuel' =>
      '(v, r) ← parse_value fuel' s;
      match skip_ws r with
      | c :: r' =>
          if bool_decide (c = ","%byte) then
            '(vs, r'') ← parse_elems fuel' r';
            Some (v :: vs, r'')
          else if bool_decide (c = "]"%byte) then Some ([v], r')
          else None
      | [] => None
      end
  end
with parse_members (fuel : nat) (s : bytes)
  : option (list (string * JSON) * bytes) :=
  match fuel with
  | O => None
  | S fuel' =>
      match skip_ws s with
      | q :: r0 =>
          if bool_decide (q = dquote) then
            '(k, r1) ← parse_chars r0;
            match skip_ws r1 with
            | colon :: r2 =>
                if bool_decide (colon = ":"%byte) then
                  '(v, r) ← parse_value fuel' r2;
                  match skip_ws r with
                  | c :: r' =>
                      if bool_decide (c = ","%byte) then
                        '(fs, r'') ← parse_members fuel' r';
                        Some ((String.string_of_list_byte k, v) :: fs, r'')
                      else if bool_decide (c = "}"%byte) then
                        Some ([(String.string_of_list_byte k, v)], r')
                      else None
                  | [] => None
                  end
                else None
            | [] => None
            end
          else None
      | [] => None
      end
  end.

(** A whole document: one value, then white space only. *)
Definition parse_json (bz : bytes) : option JSON :=
  '(v, r) ← parse_value (2 * length bz + 2) bz;
  match skip_ws r with
  | [] => Some v
  | _ => None
  end.

(** [json.Unmarshal(bz, &arr)] for [arr] of type [[]interface{}]. *)
Definition Unmarshal_slice (bz : bytes) : list JSON * option error :=
  match parse_json bz with
  | Some (JArray elems) => (elems, None)
  | Some JNull => ([], None)
  | Some _ =>
      ([], Some (errorString
         "json: cannot unmarshal value into Go value of type []interface {}"))
  | None => ([], Some (errorString "invalid JSON input"))
  end.

(** [json.Marshal]: object keys in byte order, strings quoted with the
    escapes of Go (the HTML-sensitive characters included). *)

Definition hex_lower (n : Z) : byte :=
  byte_of_Z (if n <? 10 then 48 + n else 87 + n).

Definition escape (b : byte) : bytes :=
  if bool_decide (b = dquote) then [x5c; dquote]
  else if bool_decide (b = "\"%byte) then lit "\\"
  else if bool_decide (b = "010"%byte) then lit "\n"
  else if bool_decide (b = "013"%byte) then lit "\r"
  else if bool_decide (b = "009"%byte) then lit "\t"
  else if (Z_of_byte b <? 32) || bool_decide (b = "<"%byte)
          || bool_decide (b = ">"%byte) || bool_decide (b = "&"%byte) then
    lit "\u00" ++ [hex_lower (Z_of_byte b / 16); hex_lower (Z_of_byte b mod 16)]
  else [b].

Definition quote (s : string) : bytes :=
  [dquote] ++ concat (map escape (String.list_byte_of_string s)) ++ [dquote].

Fixpoint join (sep : bytes) (l : list bytes) : bytes :=
  match l with
  | [] => []
  | [x] => x
  | x :: rest => x ++ sep ++ join sep rest
  end.

(** Insertion of a rendered member into a list sorted by key; a key
    already present keeps its place and takes the new text. *)
Fixpoint insert_member (k : string) (v : bytes) (l : list (string * bytes))
  : list (string * bytes) :=
  match l with
  | [] => [(k, v)]
  | (k', v') :: rest =>
      if String.eqb k k' then (k, v) :: rest
      else if String.ltb k k' then (k, v) :: l
      else (k', v') :: insert_member k v rest
  end.

Definition sort_members (l : list (string * bytes)) : list (string * bytes) :=
  fold_left (fun acc kv => insert_member kv.1 kv.2 acc) l [].

Definition render_object (l : list (string * bytes)) : bytes :=
  lit "{" ++ join (lit ",") (map (fun kv => quote kv.1 ++ lit ":" ++ kv.2)
                                (sort_members l)) ++ lit "}".

Fixpoint marshal_value (v : JSON) : bytes :=
  match v with
  | JNull => lit "null"
  | JBool true => lit "true"
  | JBool false => lit "false"
  | JNumber n => lit n
  | JString s => quote s
  | JArray elems => lit "[" ++ join (lit ",") (map marshal_value elems) ++ lit "]"
  | JObject fields =>
      render_object (map (fun kv => (kv.1, marshal_value kv.2)) fields)
  end.

Definition Marshal (m : gmap string JSON) : bytes * option error :=
  (render_object (map (fun kv => (kv.1, marshal_value kv.2)) (map_to_list m)),
   None).

(** *** [encoding/hex] and the validator address *)

Definition nibble (c : ascii) : option Z :=
  let n := Z.of_N (N_of_ascii c) in
  if (48 <=? n) && (n <=? 57) then Some (n - 48)
  else if (65 <=? n) && (n <=? 70) then Some (n - 55)
  else if (97 <=? n) && (n <=? 102) then Some (n - 87)
  else None.

Fixpoint hex_DecodeString (s : string) : option bytes :=
  match s with
  | EmptyString => Some []
  | String hi (String lo rest) =>
      h ← nibble hi; l ← nibble lo;
      tl ← hex_DecodeString rest;
      Some (byte_of_Z (16 * h + l) :: tl)
  | String _ EmptyString => None
  end.

Definition AddressFromHex (address : string) : bytes * option error :=
  if bool_decide (address = EmptyString) then
    ([], Some (errorString "decoding address from hex string failed: empty address"))
  else
    match hex_DecodeString address with
    | Some bz => (bz, None)
    | None => ([], Some (errorString "encoding/hex: invalid hex string"))
    end.

(** *** The node and the transaction service

    A node that serves the genesis document in the chunks [chunks] and
    the validator set [vals] in pages, and a transaction service [web]
    from URL to response whose bodies are read by [decodeTx]. *)

Definition GenesisChunked (chunks : list string) (id : Z)
  : option ResultGenesisChunk * option error :=
  match chunks !! Z.to_nat id with
  | Some data =>
      (Some {| ChunkNumber := id;
               TotalChunks := Z.of_nat (length chunks);
               Data := data |}, None)
  | None => (None, Some (errorString "there is no such genesis chunk"))
  end.

Definition ValidatorsPage (vals : list Validator) (height page perPage : Z)
  : option ResultValidators * option error :=
  let total := Z.of_nat (length vals) in
  let pages := Z.max 1 ((total + perPage - 1) / perPage) in
  if (1 <=? page) && (page <=? pages) && (1 <=? perPage) then
    let v := take (Z.to_nat perPage) (drop (Z.to_nat (perPage * (page - 1))) vals) in
    (Some {| BlockHeight := height;
             Validators := v;
             Count := Z.of_nat (length v);
             Total := total |}, None)
  else (None, Some (errorString "page should be within range"))%string.

Fixpoint lookup_url (web : list (string * Response)) (url : string)
  : option Response * option error :=
  match web with
  | [] => (None, Some (errorString "connection refused"))
  | (u, r) :: rest => if String.eqb u url then (Some r, None) else lookup_url rest url
  end.

Definition env (chunks : list string) (vals : list Validator)
    (web : list (string * Response))
    (decodeTx : bytes -> option Transaction * option error) : Env :=
  {| client_GenesisChunked := GenesisChunked chunks;
     client_Validators := ValidatorsPage vals;
     http_Get := lookup_url web;
     base64_StdEncoding_DecodeString := StdEncoding_DecodeString;
     base64_RawURLEncoding_DecodeString := RawURLEncoding_DecodeString;
     json_Unmarshal_slice := Unmarshal_slice;
     json_Unmarshal_Transaction := decodeTx;
     json_Marshal := Marshal;
     strings_TrimSpace := TrimSpace;
     ParseCombinedFormatForPresentation := ParseCombined;
     ValAddressFromHex := AddressFromHex;
     ValAddress_String := fmt_X |}.

End Ref.

(** ** Concrete runs

    The inputs of the examples: a node, its answers and a few blocks. *)

Module Scenario.

Definition cp : Node := {| txServiceAPI := "http://localhost:1317" |}.

(** Bodies read by the lookups of the examples: [{}] is a transaction
    with no field set, [null] a nil pointer. *)
Definition decodeTx (body : bytes) : option Transaction * option error :=
  if bool_decide (body = Ref.lit "{}") then
    (Some {| Transaction_TxResponse := None; Transaction_Tx := None |}, None)
  else if bool_decide (body = Ref.lit "null") then (None, None)
  else (None, Some (errorString "json: cannot unmarshal the body")).

(** A genesis document [{}] served in two chunks. *)
Definition genesis_data : list string := ["ew=="; "fQ=="].
Definition genesis_chunks : list ResultGenesisChunk :=
  [ {| ChunkNumber := 0; TotalChunks := 2; Data := "ew==" |};
    {| ChunkNumber := 1; TotalChunks := 2; Data := "fQ==" |} ].
Definition genesis_payloads : list bytes := [Ref.lit "{"; Ref.lit "}"].

(** A validator set of [n] validators told apart by their voting power. *)
Definition validator (i : nat) : Validator :=
  {| Validator_Address := [];
     Validator_PubKey := [];
     Validator_VotingPower := Z.of_nat i;
     Validator_ProposerPriority := 0 |}.
Definition validators (n : nat) : list Validator := validator <$> seq 0 n.

(** Disclosure tokens: the base64url text of
    [["salt1","name","Alice"]], [["salt2","name","Bob"]],
    [["s","n","v","x"]], [["s"]] and [["s","@type","X"]]; and a token
    that is not base64url. *)
Definition d_alice : string := "WyJzYWx0MSIsIm5hbWUiLCJBbGljZSJd".
Definition d_bob : string := "WyJzYWx0MiIsIm5hbWUiLCJCb2IiXQ".
Definition d_four : string := "WyJzIiwibiIsInYiLCJ4Il0".
Definition d_one : string := "WyJzIl0".
Definition d_type : string := "WyJzIiwiQHR5cGUiLCJYIl0".
Definition d_bad : string := "!".

(** A presentation: SD-JWT, disclosures, holder binding. *)
Definition presentation (disclosures : list string) : bytes :=
  Ref.lit (" h.p.s~" +:+ String.concat "~" disclosures +:+ "~k.b.s ").

(** Two transactions looked up by hash, and the service that knows them. *)
Definition tx1 : bytes := Ref.lit "first".
Definition tx2 : bytes := Ref.lit "second".
Definition web : list (string * Response) :=
  [ (lookup_url_of cp tx1, {| StatusCode := 200; Body := (Ref.lit "{}", None) |});
    (lookup_url_of cp tx2, {| StatusCode := 200; Body := (Ref.lit "null", None) |}) ].

Definition env (vals : list Validator) : Env :=
  Ref.env genesis_data vals web decodeTx.

(** A node that answers no genesis request. *)
Definition env_down : Env := Ref.env [] [] [] decodeTx.

Definition block (height : Z) (txs : list bytes) : ResultBlock :=
  {| ResultBlock_Block :=
       {| Block_Header := {| Height := height; ProposerAddress := [x01; xab] |};
          Block_Txs := txs |} |}.

End Scenario.

(** ** The genesis document: [Genesis] and [getGenesisChunked] *)

(** [strings.Contains(s, substr)]. *)
Fixpoint strings_Contains (s substr : string) : bool :=
  String.prefix substr s
  || match s with
     | EmptyString => false
     | String _ rest => strings_Contains rest substr
     end.

Definition chunked_marker : string := "use the genesis_chunked API instead".

(** The calls of [Genesis]: the plain genesis request, and the calls of
    the code it falls back on. *)
Inductive node_call : Type :=
| CallGenesis
| CallNode (ev : event).

Record ResultGenesis (GenesisDoc : Type) : Type := {
  ResultGenesis_Genesis : option GenesisDoc
}.
Arguments Build_ResultGenesis {GenesisDoc} _.
Arguments ResultGenesis_Genesis {GenesisDoc} _.

Section GenesisDocument.

(** The type of genesis documents, the answer of [client.Genesis] and
    [tmjson.Unmarshal] into a genesis document. *)
Context (E : Env) (GenesisDoc : Type).
Context (client_Genesis : option (ResultGenesis GenesisDoc) * option error).
Context (tmjson_Unmarshal : bytes -> option GenesisDoc * option error).

Definition getGenesisChunked (fuel : nat) (cp : Node)
  : M (option (ResultGenesis GenesisDoc) * option error) :=
  do '(bz, err) <- getGenesisChunksStartingFrom E fuel cp 0;
  match err with
  | Some err => ret (None, Some err)
  | None =>
      let '(genDoc, err) := tmjson_Unmarshal bz in
      match err with
      | Some err => ret (None, Some err)
      | None => ret (Some {| ResultGenesis_Genesis := genDoc |}, None)
      end
  end.

Definition Node_Genesis (fuel : nat) (cp : Node)
  : list node_call * outcome (option (ResultGenesis GenesisDoc) * option error) :=
  let '(res, err) := client_Genesis in
  match err with
  | Some e =>
      if strings_Contains (Error e) chunked_marker then
        let '(t, o) := getGenesisChunked fuel cp in
        (CallGenesis :: (CallNode <$> t), o)
      else ([CallGenesis], Returned (res, err))
  | None => ([CallGenesis], Returned (res, err))
  end.

End GenesisDocument.

(** ** Reading the loops *)

(** The outcome of a reassembly that has asked for [requests], holds [bz]
    and goes on as [m]. *)
Definition after_chunks (requests : list event) (bz : bytes)
    (m : M (bytes * option error)) : M (bytes * option error) :=
  (requests ++ m.1,
   match m.2 with
   | Returned (next, None) => Returned (bz ++ next, None)
   | Returned (_, Some err) => Returned ([], Some err)
   | Panicked p => Panicked p
   | OutOfFuel => OutOfFuel
   end).

(** One turn of the loop of [Validators] on the answer [result], and the
    turns on the answers [pages] from the start. *)
Definition collect_page (vals result : ResultValidators) : ResultValidators :=
  {| BlockHeight := BlockHeight vals;
     Validators := Validators vals ++ Validators result;
     Count := GoInt.int (Count vals + Count result);
     Total := Total result |}.

Definition collect_pages (height : Z) (pages : list ResultValidators)
  : ResultValidators :=
  foldl collect_page
    {| BlockHeight := height; Validators := []; Count := 0; Total := 0 |} pages.

(** Digits of [%X]. *)
Definition is_hex_upper (c : ascii) : bool :=
  let n := Z.of_N (N_of_ascii c) in
  ((48 <=? n) && (n <=? 57)) || ((65 <=? n) && (n <=? 70)).

Fixpoint string_forall (P : ascii -> bool) (s : string) : bool :=
  match s with
  | EmptyString => true
  | String c rest => P c && string_forall P rest
  end.

(** ** More concrete runs *)

Module Cases.

(** An environment with another node behind it. *)
Definition with_client (E : Env)
    (chunk : Z -> option ResultGenesisChunk * option error)
    (page : Z -> Z -> Z -> option ResultValidators * option error) : Env :=
  {| client_GenesisChunked := chunk;
     client_Validators := page;
     http_Get := http_Get E;
     base64_StdEncoding_DecodeString := base64_StdEncoding_DecodeString E;
     base64_RawURLEncoding_DecodeString := base64_RawURLEncoding_DecodeString E;
     json_Unmarshal_slice := json_Unmarshal_slice E;
     json_Unmarshal_Transaction := json_Unmarshal_Transaction E;
     json_Marshal := json_Marshal E;
     strings_TrimSpace := strings_TrimSpace E;
     ParseCombinedFormatForPresentation := ParseCombinedFormatForPresentation E;
     ValAddressFromHex := ValAddressFromHex E;
     ValAddress_String := ValAddress_String E |}.

(** Two chunks, the second of which is not base64 text. *)
Definition env_bad_chunk : Env := Ref.env ["ew=="; "!"] [] [] Scenario.decodeTx.

(** A node that serves chunk 0 of 2 and then drops the connection. *)
Definition chunk_then_down (id : Z) : option ResultGenesisChunk * option error :=
  if id =? 0 then
    (Some {| ChunkNumber := 0; TotalChunks := 2; Data := "ew==" |}, None)
  else (None, Some (errorString "connection reset")).

(** A node that reports a total of 0 on every chunk. *)
Definition chunk_of_none (id : Z) : option ResultGenesisChunk * option error :=
  (Some {| ChunkNumber := id; TotalChunks := 0; Data := "" |}, None).

(** Three validators in pages of two and one. *)
Definition uneven_pages (height page perPage : Z)
  : option ResultValidators * option error :=
  if page =? 1 then
    (Some {| BlockHeight := height;
             Validators := [Scenario.validator 0; Scenario.validator 1];
             Count := 2; Total := 3 |}, None)
  else if page =? 2 then
    (Some {| BlockHeight := height;
             Validators := [Scenario.validator 2];
             Count := 1; Total := 3 |}, None)
  else (None, Some (errorString "page should be within range")).

(** The same first page, and a second page that fails. *)
Definition page_then_down (height page perPage : Z)
  : option ResultValidators * option error :=
  if page =? 1 then uneven_pages height page perPage
  else (None, Some (errorString "connection reset")).

(** A node that reports one validator and serves empty pages. *)
Definition empty_pages (height page perPage : Z)
  : option ResultValidators * option error :=
  (Some {| BlockHeight := height; Validators := []; Count := 0; Total := 1 |}, None).

Definition env_with (chunk : Z -> option ResultGenesisChunk * option error)
    (page : Z -> Z -> Z -> option ResultValidators * option error) : Env :=
  with_client (Scenario.env []) chunk page.

(** Genesis documents read as JSON values. *)
Definition parse_doc (bz : bytes) : option JSON * option error :=
  match Ref.parse_json bz with
  | Some v => (Some v, None)
  | None => (None, Some (errorString "invalid JSON input"))
  end.

Definition too_large : error :=
  errorString
    "genesis response is large, please use the genesis_chunked API instead".

(** A transaction the service does not know. *)
Definition tx3 : bytes := Ref.lit "third".

End Cases.

(** * Properties *)


(** ** The trace monad *)

Lemma bind_ret_l {A B} (a : A) (k : A -> M B) : bind (ret a) k = k a.
Proof. unfold bind, ret. destruct (k a) as [t o]. reflexivity. Qed.

Lemma bind_call {A B} (ev : event) (a : A) (k : A -> M B) :
  bind (call ev a) k = (ev :: (k a).1, (k a).2).
Proof. unfold bind, call. destruct (k a) as [t o]. reflexivity. Qed.

Lemma bind_silent {A B} (o : outcome A) (k : A -> M B) :
  bind ([], o) k =
  match o with
  | Returned a => k a
  | Panicked p => ([], Panicked p)
  | OutOfFuel => ([], OutOfFuel)
  end.
Proof. destruct o; cbn; [destruct (k a)|..]; reflexivity. Qed.

(** ** Machine integers *)

Lemma uint_small (x : Z) : 0 <= x < GoInt.two64 -> GoInt.uint x = x.
Proof. intros H. unfold GoInt.uint. apply Z.mod_small. exact H. Qed.

Lemma int_small (x : Z) : GoInt.is_int x -> GoInt.int x = x.
Proof.
  unfold GoInt.is_int, GoInt.int, GoInt.two63, GoInt.two64. intros H.
  rewrite Z.mod_small; lia.
Qed.

Lemma uint_inj_on_int (x y : Z) :
  GoInt.is_int x -> GoInt.is_int y -> GoInt.uint x = GoInt.uint y -> x = y.
Proof.
  unfold GoInt.is_int, GoInt.uint, GoInt.two63, GoInt.two64.
  intros Hx Hy Heq.
  assert (Hd : (x - y) mod 2 ^ 64 = 0).
  { rewrite Zminus_mod, Heq, Z.sub_diag. reflexivity. }
  apply Z.mod_divide in Hd; [|lia]. destruct Hd as [q Hq]. lia.
Qed.

(** ** Bytes, little-endian words and hexadecimal text *)

Lemma Z_of_byte_range (b : byte) : 0 <= Z_of_byte b < 256.
Proof.
  unfold Z_of_byte. pose proof (Byte.to_N_bounded b) as H. lia.
Qed.

Lemma Z_of_byte_of_Z (z : Z) : Z_of_byte (byte_of_Z z) = z mod 256.
Proof.
  unfold Z_of_byte, byte_of_Z.
  destruct (Byte.of_N (Z.to_N (z mod 256))) as [b|] eqn:Hb.
  - apply Byte.to_of_N in Hb. rewrite Hb.
    rewrite Z2N.id; [reflexivity|]. apply Z.mod_pos_bound. lia.
  - apply Byte.of_N_None_iff in Hb.
    pose proof (Z.mod_pos_bound z 256 ltac:(lia)). lia.
Qed.

Lemma PutUint64_length (v : Z) : length (PutUint64 v) = 8%nat.
Proof. reflexivity. Qed.

Lemma Uint64_PutUint64 (v : Z) : 0 <= v < GoInt.two64 -> Uint64 (PutUint64 v) = v.
Proof.
  unfold GoInt.two64. intros Hv. unfold Uint64, PutUint64. cbn [map fold_right].
  rewrite !Z_of_byte_of_Z, !Z.shiftr_div_pow2 by lia.
  change (8 * 0) with 0. change (8 * 1) with 8. change (8 * 2) with 16.
  change (8 * 3) with 24. change (8 * 4) with 32. change (8 * 5) with 40.
  change (8 * 6) with 48. change (8 * 7) with 56.
  Z.div_mod_to_equations. lia.
Qed.

Lemma hex_byte_roundtrip (b : byte) :
  Ref.nibble (hex_digit (Z_of_byte b / 16)) = Some (Z_of_byte b / 16)
  /\ Ref.nibble (hex_digit (Z_of_byte b mod 16)) = Some (Z_of_byte b mod 16).
Proof. destruct b; split; reflexivity. Qed.

Lemma byte_of_Z_of_byte (b : byte) : byte_of_Z (Z_of_byte b) = b.
Proof. destruct b; reflexivity. Qed.

Lemma hex_DecodeString_fmt_X (bz : bytes) : Ref.hex_DecodeString (fmt_X bz) = Some bz.
Proof.
  induction bz as [|b bz IH]; [reflexivity|].
  cbn [fmt_X Ref.hex_DecodeString].
  destruct (hex_byte_roundtrip b) as [-> ->]. rewrite IH. cbn.
  rewrite <- Z.div_mod by lia. rewrite byte_of_Z_of_byte. reflexivity.
Qed.

Lemma fmt_X_inj (a b : bytes) : fmt_X a = fmt_X b -> a = b.
Proof.
  intros H. apply (f_equal Ref.hex_DecodeString) in H.
  rewrite !hex_DecodeString_fmt_X in H. congruence.
Qed.

(** ** Genesis chunks *)

Section Genesis.

Context (E : Env) (cp : Node).
Context (chunks : list ResultGenesisChunk) (payloads : list bytes).

(** The node serves [chunks]: chunk [i] is the answer to request [i] and
    reports the number of chunks as its total. *)
Hypothesis Hserve : forall (i : nat) (c : ResultGenesisChunk),
  chunks !! i = Some c ->
  client_GenesisChunked E (Z.of_nat i) = (Some c, None)
  /\ TotalChunks c = Z.of_nat (length chunks).

(** Every payload decodes: [payloads] are the decoded bytes, in order. *)
Hypothesis Hdecode :
  Forall2 (fun c p => base64_StdEncoding_DecodeString E (Data c) = (p, None))
          chunks payloads.

(** The total is a Go [int]. *)
Hypothesis Hint : GoInt.is_int (Z.of_nat (length chunks)).

Lemma getGenesisChunks_from (n k fuel : nat) :
  (k + n = length chunks)%nat -> (1 <= n)%nat -> (n <= fuel)%nat ->
  getGenesisChunksStartingFrom E fuel cp (Z.of_nat k)
  = (map (fun i : nat => EvGenesisChunked (Z.of_nat i)) (seq k n),
     Returned (concat (drop k payloads), None)).
Proof using Hserve Hdecode Hint.
  unfold GoInt.is_int, GoInt.two63 in Hint.
  revert k fuel. induction n as [|n IH]; intros k fuel Hk Hn Hfuel; [lia|].
  destruct fuel as [|fuel]; [lia|].
  destruct (lookup_lt_is_Some_2 chunks k) as [c Hc]; [lia|].
  destruct (Hserve k c Hc) as [Hrpc Htot].
  destruct (Forall2_lookup_l _ _ _ _ _ Hdecode Hc) as (p & Hp & Hb64).
  cbn [getGenesisChunksStartingFrom]. rewrite bind_call, Hrpc. cbn beta iota.
  rewrite Hb64, Htot.
  rewrite int_small by (unfold GoInt.is_int, GoInt.two63; lia).
  rewrite uint_small by (unfold GoInt.two64; lia).
  rewrite (drop_S _ _ _ Hp). cbn [concat].
  destruct n as [|n].
  - replace (Z.of_nat k =? Z.of_nat (length chunks) - 1) with true
      by (symmetry; apply Z.eqb_eq; lia).
    cbn. rewrite drop_ge by (apply Forall2_length in Hdecode; lia).
    cbn. rewrite app_nil_r. reflexivity.
  - replace (Z.of_nat k =? Z.of_nat (length chunks) - 1) with false
      by (symmetry; apply Z.eqb_neq; lia).
    rewrite uint_small by (unfold GoInt.two64; lia).
    replace (Z.of_nat k + 1) with (Z.of_nat (S k)) by lia.
    rewrite (IH (S k) fuel) by lia.
    cbn. rewrite app_nil_r. reflexivity.
Qed.

(** C1.  When the node serves N >= 1 chunks that all report N as their
    total and all decode, [getGenesisChunksStartingFrom(0)] asks for the
    chunks 0, 1, ..., N-1 in this order and returns, with a nil error,
    the decoded payloads concatenated in ascending index order.  A
    recursion depth of N is enough. *)
Theorem getGenesisChunks_reassembles (fuel : nat) :
  (1 <= length chunks)%nat -> (length chunks <= fuel)%nat ->
  getGenesisChunksStartingFrom E fuel cp 0
  = (map (fun i : nat => EvGenesisChunked (Z.of_nat i)) (seq 0 (length chunks)),
     Returned (concat payloads, None)).
Proof using Hserve Hdecode Hint.
  intros Hn Hfuel.
  exact (getGenesisChunks_from (length chunks) 0 fuel eq_refl Hn Hfuel).
Qed.

End Genesis.

(** A failed fetch whose result pointer is set is reported as an error that
    names the index asked for and the total of that result; no bytes come
    with it. *)
Lemma getGenesisChunks_fetch_error (E : Env) (cp : Node) (fuel : nat) (id : Z)
    (res : ResultGenesisChunk) (err : error) :
  client_GenesisChunked E id = (Some res, Some err) ->
  getGenesisChunksStartingFrom E (S fuel) cp id
  = ([EvGenesisChunked id],
     Returned ([], Some (errorString
       ("error while getting genesis chunk " +:+ fmt_d id
        +:+ " out of " +:+ fmt_d (TotalChunks res))))).
Proof.
  intros H. cbn [getGenesisChunksStartingFrom]. rewrite bind_call, H. reflexivity.
Qed.

(** A failed fetch with a nil result makes the error path dereference nil. *)
Lemma getGenesisChunks_fetch_error_nil (E : Env) (cp : Node) (fuel : nat) (id : Z)
    (err : error) :
  client_GenesisChunked E id = (None, Some err) ->
  getGenesisChunksStartingFrom E (S fuel) cp id
  = ([EvGenesisChunked id], Panicked NilDereference).
Proof.
  intros H. cbn [getGenesisChunksStartingFrom]. rewrite bind_call, H. reflexivity.
Qed.

(** An error of a later chunk is returned as it is, without the bytes
    decoded so far. *)
Lemma getGenesisChunks_no_partial (E : Env) (cp : Node) (fuel : nat) (id : Z)
    (bz : bytes) (err : error) (t : list event) :
  getGenesisChunksStartingFrom E fuel cp id = (t, Returned (bz, Some err)) ->
  bz = [].
Proof.
  revert id t. induction fuel as [|fuel IH]; intros id t; [discriminate|].
  cbn [getGenesisChunksStartingFrom]. rewrite bind_call.
  destruct (client_GenesisChunked E id) as [[res|] [e|]]; cbn;
    try (intros [= <- <-]; reflexivity); try discriminate.
  destruct (base64_StdEncoding_DecodeString E (Data res)) as [b [e|]]; cbn;
    try (intros [= <- <-]; reflexivity).
  destruct (id =? _); cbn; [discriminate|].
  destruct (getGenesisChunksStartingFrom E fuel cp _) as [t' [[nx [e|]]| |]] eqn:Hrec;
    cbn; try discriminate; intros [= <- <- <-]; reflexivity.
Qed.

(** C7.  A fetch failure for which the client hands back a nil result, as
    the RPC client does on every failed call, is not returned as an error:
    building the error message reads [res.TotalChunks] and the call ends in
    a nil-pointer panic. *)
Theorem getGenesisChunks_fetch_failure_panics :
  client_GenesisChunked Scenario.env_down 0
    = (None, Some (errorString "there is no such genesis chunk"))
  /\ getGenesisChunksStartingFrom Scenario.env_down 1 Scenario.cp 0
    = ([EvGenesisChunked 0], Panicked NilDereference).
Proof. split; reflexivity. Qed.

Lemma getGenesisChunks_reassembles_witness :
  getGenesisChunksStartingFrom (Scenario.env []) 2 Scenario.cp 0
  = ([EvGenesisChunked 0; EvGenesisChunked 1], Returned (Ref.lit "{}", None)).
Proof.
  apply (getGenesisChunks_reassembles (Scenario.env []) Scenario.cp
           Scenario.genesis_chunks Scenario.genesis_payloads).
  - intros [|[|i]] c; cbn; intros [= <-]; split; reflexivity.
  - repeat constructor.
  - vm_compute. split; [discriminate | reflexivity].
  - cbn. lia.
  - cbn. lia.
Defined.

(** ** Validator pages *)

Lemma ceil_div_100_le (t k : Z) :
  0 <= t -> (ceil_div t 100 <= k <-> t <= 100 * k).
Proof.
  unfold ceil_div. intros Ht. split; intros H; Z.div_mod_to_equations; lia.
Qed.

Section Pagination.

Context (E : Env) (cp : Node) (height : Z) (vs : list Validator).

(** The node serves the validator set [vs] of the height in pages of 100:
    page [k + 1] holds the validators from position [100 * k] on, counts
    them and reports the size of the set as the total. *)
Hypothesis Hpages : forall k : nat,
  (100 * k < length vs)%nat \/ k = 0%nat ->
  exists result,
    client_Validators E height (Z.of_nat k + 1) 100 = (Some result, None)
    /\ Validators result = take 100 (drop (100 * k) vs)
    /\ Count result = Z.of_nat (length (Validators result))
    /\ Total result = Z.of_nat (length vs).

(** The total is a Go [int]. *)
Hypothesis Hint : GoInt.is_int (Z.of_nat (length vs)).

Lemma Validators_loop_pages (n k fuel : nat) (vals : ResultValidators) :
  (k + n = page_count (Z.of_nat (length vs)))%nat -> (1 <= n)%nat -> (n <= fuel)%nat ->
  BlockHeight vals = height ->
  Validators vals = take (100 * k) vs ->
  Count vals = Z.of_nat (100 * k) ->
  Validators_loop E fuel height vals (Z.of_nat k + 1) 100
  = (map (fun p : nat => EvValidators height (Z.of_nat p) 100) (seq (S k) n),
     Returned (Some {| BlockHeight := height; Validators := vs;
                       Count := Z.of_nat (length vs);
                       Total := Z.of_nat (length vs) |}, None)).
Proof using Hpages Hint.
  unfold GoInt.is_int, GoInt.two63 in Hint. unfold page_count.
  revert k fuel vals.
  induction n as [|n IH]; intros k fuel vals Hk Hn Hfuel Hh Hv Hc; [lia|].
  destruct fuel as [|fuel]; [lia|].
  assert (Hlt : (100 * k < length vs)%nat \/ k = 0%nat).
  { destruct k as [|k]; [right; reflexivity|left].
    assert (H1 : ~ ceil_div (Z.of_nat (length vs)) 100 <= Z.of_nat (S k)) by lia.
    rewrite ceil_div_100_le in H1 by lia. lia. }
  destruct (Hpages k Hlt) as (result & Hrpc & Hrv & Hrc & Hrt).
  cbn [Validators_loop]. rewrite bind_call, Hrpc. cbn beta iota.
  cbn [Count Total Validators BlockHeight].
  rewrite Hc, Hrc, Hrt, Hrv, Hv, Hh, take_take_drop, length_take, length_drop.
  rewrite int_small by (unfold GoInt.is_int, GoInt.two63; lia).
  rewrite int_small by (unfold GoInt.is_int, GoInt.two63; lia).
  replace (Z.of_nat k + 1) with (Z.of_nat (S k)) by lia.
  destruct (Z.eqb_spec
              (Z.of_nat (100 * k) + Z.of_nat (100 `min` (length vs - 100 * k)))
              (Z.of_nat (length vs))) as [Heq|Hne].
  - (* the running count has reached the total: this was the last page *)
    rewrite Heq. rewrite take_ge by lia.
    destruct n as [|n]; [cbn; reflexivity|].
    exfalso.
    assert (Hgt : ~ Z.of_nat (length vs) <= 100 * Z.of_nat (S k)).
    { rewrite <- ceil_div_100_le by lia. lia. }
    lia.
  - (* a full page, and more to come *)
    destruct n as [|n].
    { exfalso.
      assert (Hle : Z.of_nat (length vs) <= 100 * Z.of_nat (S k)).
      { apply ceil_div_100_le; lia. }
      lia. }
    rewrite (IH (S k) fuel); cbn [BlockHeight Validators Count];
      [reflexivity | lia | lia | lia | reflexivity | f_equal; lia | lia].
Qed.

(** C3, as amended.  For a validator set of T validators without
    duplicates, served in pages of 100 with consistent counts and total,
    [Validators(height)] asks for the pages 1, 2, ... in this order, issues
    exactly max(1, ceil(T/100)) requests -- ceil(T/100) when T >= 1, and one
    request when T = 0 -- and returns exactly the T validators of the set,
    in order and without duplicates, with count and total T. *)
Theorem Validators_collects_all (fuel : nat) :
  NoDup vs ->
  (page_count (Z.of_nat (length vs)) <= fuel)%nat ->
  exists requests result,
    Node_Validators E fuel cp height = (requests, Returned (Some result, None))
    /\ requests = map (fun p : nat => EvValidators height (Z.of_nat p) 100)
                      (seq 1 (page_count (Z.of_nat (length vs))))
    /\ Z.of_nat (length requests) = Z.max 1 (ceil_div (Z.of_nat (length vs)) 100)
    /\ ((1 <= length vs)%nat ->
        Z.of_nat (length requests) = ceil_div (Z.of_nat (length vs)) 100)
    /\ Validators result = vs
    /\ length (Validators result) = length vs
    /\ Count result = Z.of_nat (length vs)
    /\ Total result = Z.of_nat (length vs)
    /\ NoDup (Validators result).
Proof using Hpages Hint.
  intros Hnodup Hfuel.
  pose proof (Validators_loop_pages (page_count (Z.of_nat (length vs))) 0 fuel
    {| BlockHeight := height; Validators := []; Count := 0; Total := 0 |}) as Hrun.
  eexists _, _. split.
  - unfold Node_Validators. apply Hrun; try reflexivity; try lia.
    unfold page_count. lia.
  - cbn [Validators Count Total].
    assert (Hlen : Z.of_nat (length (map (fun p : nat => EvValidators height (Z.of_nat p) 100)
                     (seq 1 (page_count (Z.of_nat (length vs))))))
                   = Z.max 1 (ceil_div (Z.of_nat (length vs)) 100)).
    { rewrite length_map, length_seq. unfold page_count. lia. }
    repeat split; try reflexivity; try assumption.
    intros Hpos. rewrite Hlen.
    assert (~ ceil_div (Z.of_nat (length vs)) 100 <= 0).
    { rewrite ceil_div_100_le by lia. lia. }
    lia.
Qed.

End Pagination.

(** The reference node serves every validator set page by page. *)
Lemma Ref_ValidatorsPage_serves (vs : list Validator) (height : Z) (k : nat) :
  (100 * k < length vs)%nat \/ k = 0%nat ->
  exists result,
    Ref.ValidatorsPage vs height (Z.of_nat k + 1) 100 = (Some result, None)
    /\ Validators result = take 100 (drop (100 * k) vs)
    /\ Count result = Z.of_nat (length (Validators result))
    /\ Total result = Z.of_nat (length vs).
Proof.
  intros Hk. unfold Ref.ValidatorsPage.
  assert (Hin : (1 <=? Z.of_nat k + 1) && (Z.of_nat k + 1 <=?
                  Z.max 1 ((Z.of_nat (length vs) + 100 - 1) / 100)) && (1 <=? 100) = true).
  { rewrite !andb_true_iff, !Z.leb_le. repeat split; try lia.
    destruct Hk as [Hk| ->]; [|lia].
    assert (H : ~ ceil_div (Z.of_nat (length vs)) 100 <= Z.of_nat k).
    { rewrite ceil_div_100_le by lia. lia. }
    unfold ceil_div in H. lia. }
  rewrite Hin. eexists. split; [reflexivity|].
  cbn [Validators Count Total].
  replace (Z.to_nat (100 * (Z.of_nat k + 1 - 1))) with (100 * k)%nat by lia.
  replace (Z.to_nat 100) with 100%nat by reflexivity.
  repeat split.
Qed.

Lemma Scenario_validators_NoDup (n : nat) : NoDup (Scenario.validators n).
Proof.
  unfold Scenario.validators. apply NoDup_fmap_2_strong; [|apply NoDup_seq].
  intros i j _ _ Heq. injection Heq. lia.
Qed.

Lemma Validators_collects_all_witness :
  exists requests result,
    Node_Validators (Scenario.env (Scenario.validators 250)) 3 Scenario.cp 42
      = (requests, Returned (Some result, None))
    /\ requests = [EvValidators 42 1 100; EvValidators 42 2 100; EvValidators 42 3 100]
    /\ length (Validators result) = 250%nat
    /\ NoDup (Validators result).
Proof.
  destruct (Validators_collects_all (Scenario.env (Scenario.validators 250))
              Scenario.cp 42 (Scenario.validators 250)
              (Ref_ValidatorsPage_serves (Scenario.validators 250) 42)
              ltac:(vm_compute; split; [discriminate | reflexivity])
              3 (Scenario_validators_NoDup 250) ltac:(vm_compute; lia))
    as (requests & result & Hrun & Hreq & _ & _ & _ & Hlen & _ & _ & Hnodup).
  exists requests, result. repeat split; assumption.
Defined.

(** The claim of C3 as it stands, ceil(T/100) requests for every T, fails
    for the empty set: T = 0 gives ceil(0/100) = 0, and the loop asks for
    page 1 before it compares the count with the total. *)
Lemma Validators_empty_set_one_request :
  exists requests result,
    Node_Validators (Scenario.env []) 1 Scenario.cp 42
      = (requests, Returned (Some result, None))
    /\ Validators result = []
    /\ Total result = 0
    /\ requests = [EvValidators 42 1 100]
    /\ Z.of_nat (length requests) <> ceil_div (Total result) 100.
Proof.
  eexists _, _. split; [reflexivity|]. cbn. repeat split. discriminate.
Qed.

(** ** Verifiable presentations *)

Section Presentation.

Context (E : Env).

(** Decoding the disclosures issues no call to the node or the service. *)
Lemma compile_disclosures_silent (ds : list string) (m : gmap string JSON) :
  (compile_disclosures E ds m).1 = [].
Proof.
  revert m. induction ds as [|d ds IH]; intros m; [reflexivity|].
  cbn [compile_disclosures].
  destruct (base64_RawURLEncoding_DecodeString E d) as [decoded [e|]]; [reflexivity|].
  destruct (json_Unmarshal_slice E decoded) as [arr [e|]]; [reflexivity|].
  destruct (arr !! 1%nat) as [[]|]; try reflexivity.
  destruct (arr !! 2%nat); [apply IH | reflexivity].
Qed.

(** One turn of the loop on a token it gets past. *)
Lemma compile_disclosures_entry (d : string) (ds : list string)
    (e : string * JSON) (m : gmap string JSON) :
  disclosure_entry E d e ->
  compile_disclosures E (d :: ds) m = compile_disclosures E ds (<[e.1 := e.2]> m).
Proof.
  intros (decoded & arr & Hd & Hu & H1 & H2).
  cbn [compile_disclosures]. rewrite Hd, Hu, H1, H2. reflexivity.
Qed.

Lemma compile_disclosures_entries (ds1 ds2 : list string)
    (es : list (string * JSON)) (m : gmap string JSON) :
  Forall2 (disclosure_entry E) ds1 es ->
  compile_disclosures E (ds1 ++ ds2) m
  = compile_disclosures E ds2 (foldl (fun acc e => <[e.1 := e.2]> acc) m es).
Proof.
  intros H. revert m. induction H as [|d e ds1 es Hde _ IH]; intros m; [reflexivity|].
  cbn [app foldl]. rewrite (compile_disclosures_entry d _ e m Hde). apply IH.
Qed.

(** The loop runs to its end only on tokens it gets past, and then holds
    their entries written in order. *)
Lemma compile_disclosures_inl (ds : list string) (m m' : gmap string JSON)
    (t : list event) :
  compile_disclosures E ds m = (t, Returned (inl m')) ->
  exists es, Forall2 (disclosure_entry E) ds es
             /\ m' = foldl (fun acc e => <[e.1 := e.2]> acc) m es.
Proof.
  revert m. induction ds as [|d ds IH]; intros m.
  - cbn. intros [= <- <-]. exists []. split; [constructor | reflexivity].
  - cbn [compile_disclosures].
    destruct (base64_RawURLEncoding_DecodeString E d) as [decoded [e|]] eqn:Hd;
      [discriminate|].
    destruct (json_Unmarshal_slice E decoded) as [arr [e|]] eqn:Hu; [discriminate|].
    destruct (arr !! 1%nat) as [[| | |name| |]|] eqn:H1; try discriminate.
    destruct (arr !! 2%nat) as [value|] eqn:H2; [|discriminate].
    intros Hrec. destruct (IH _ Hrec) as (es & Hes & ->).
    exists ((name, value) :: es). split; [|reflexivity].
    constructor; [|exact Hes]. exists decoded, arr. auto.
Qed.

(** Writing entries in order: the last entry of a name decides. *)
Lemma foldl_insert_lookup (es : list (string * JSON)) (m : gmap string JSON)
    (name : string) :
  foldl (fun acc e => <[e.1 := e.2]> acc) m es !! name
  = match last (filter (fun e => e.1 = name) es) with
    | Some e => Some e.2
    | None => m !! name
    end.
Proof.
  revert m. induction es as [|e es IH]; intros m; [reflexivity|].
  cbn [foldl]. rewrite IH, filter_cons.
  destruct (decide (e.1 = name)) as [Heq|Hne].
  - rewrite last_cons.
    destruct (last (filter (fun e0 : string * JSON => e0.1 = name) es)); [reflexivity|].
    rewrite Heq. apply lookup_insert_eq.
  - destruct (last (filter (fun e0 : string * JSON => e0.1 = name) es)); [reflexivity|].
    apply lookup_insert_ne. exact Hne.
Qed.

Lemma disclosedJson_of_inl (txn : bytes) (m : gmap string JSON) (t : list event) :
  disclosedJson_of E txn = (t, Returned (inl m)) ->
  exists es,
    Forall2 (disclosure_entry E) (disclosures_of E txn) es
    /\ m = <["@type" := JString VP_TYPE]>
             (foldl (fun acc e => <[e.1 := e.2]> acc) ∅ es).
Proof.
  unfold disclosedJson_of. fold (disclosures_of E txn).
  destruct (compile_disclosures E (disclosures_of E txn) ∅)
    as [t' [[m'|e]| |]] eqn:Hc; cbn; try discriminate.
  intros [= <- <-]. destruct (compile_disclosures_inl _ _ _ _ Hc) as (es & Hes & ->).
  exists es. auto.
Qed.

Lemma disclosedJson_of_silent (txn : bytes) : (disclosedJson_of E txn).1 = [].
Proof.
  unfold disclosedJson_of. fold (disclosures_of E txn).
  pose proof (compile_disclosures_silent (disclosures_of E txn) ∅) as H.
  destruct (compile_disclosures E _ ∅) as [t [[m|e]| |]]; cbn in *; subst; reflexivity.
Qed.

Lemma HandleVPTxs_silent (cp : Node) (txn : bytes) (block : ResultBlock) :
  (HandleVPTxs E cp txn block).1 = [].
Proof.
  unfold HandleVPTxs. pose proof (disclosedJson_of_silent txn) as H.
  destruct (disclosedJson_of E txn) as [t [[m|e]| |]]; cbn in *; subst; try reflexivity.
  destruct (json_Marshal E m) as [jsonBytes [e|]]; [reflexivity|].
  destruct (ValAddressFromHex E _) as [valAddr [e|]]; reflexivity.
Qed.

(** What a transaction returned by [HandleVPTxs] is made from. *)
Lemma HandleVPTxs_success (cp : Node) (txn : bytes) (block : ResultBlock)
    (t : Transaction) (err : option error) (tr : list event) :
  HandleVPTxs E cp txn block = (tr, Returned (Some t, err)) ->
  exists disclosedJson jsonBytes,
    disclosedJson_of E txn = ([], Returned (inl disclosedJson))
    /\ json_Marshal E disclosedJson = (jsonBytes, None)
    /\ Transaction_payload t = Some jsonBytes
    /\ Transaction_TxHash t
       = Some (fmt_X (SHA256.Sum256
           (jsonBytes ++ PutUint64
              (GoInt.uint (Height (Block_Header (ResultBlock_Block block)))))))
    /\ err = None /\ tr = [].
Proof.
  unfold HandleVPTxs. pose proof (disclosedJson_of_silent txn) as H.
  destruct (disclosedJson_of E txn) as [t' [[m|e]| |]]; cbn in *; subst;
    try discriminate.
  destruct (json_Marshal E m) as [jsonBytes [e|]] eqn:Hm; [discriminate|].
  destruct (ValAddressFromHex E _) as [valAddr [e|]]; [discriminate|].
  intros [= <- <- <-]. exists m, jsonBytes. repeat split; try reflexivity; exact Hm.
Qed.

Lemma HandleVPTxs_disclosure_error (cp : Node) (txn : bytes)
    (block : ResultBlock) (err : error) :
  disclosedJson_of E txn = ([], Returned (inr err)) ->
  HandleVPTxs E cp txn block = ([], Returned (None, Some err)).
Proof. intros H. unfold HandleVPTxs. rewrite H. reflexivity. Qed.

End Presentation.

(** C2, as amended.  A presentation is rejected as a whole, with no
    transaction and an error that wraps the decoder's error, when the first
    disclosure token the loop does not get past is not base64url text or
    does not JSON-decode into an array.  A transaction is returned only if
    every disclosure token decodes to an array of at least 3 elements whose
    second element is a string; elements after the third are not looked
    at. *)
Theorem HandleVPTxs_rejects_undecodable_disclosure (E : Env) (cp : Node)
    (txn : bytes) (block : ResultBlock) :
  (forall (i : nat) (d : string) (entries : list (string * JSON))
          (decoded : bytes) (err : error),
      disclosures_of E txn !! i = Some d ->
      Forall2 (disclosure_entry E) (take i (disclosures_of E txn)) entries ->
      base64_RawURLEncoding_DecodeString E d = (decoded, Some err) ->
      HandleVPTxs E cp txn block
      = ([], Returned (None, Some (wrapError
                ("failed to decode disclosure: " +:+ Error err) err))))
  /\ (forall (i : nat) (d : string) (entries : list (string * JSON))
          (decoded : bytes) (arr : list JSON) (err : error),
      disclosures_of E txn !! i = Some d ->
      Forall2 (disclosure_entry E) (take i (disclosures_of E txn)) entries ->
      base64_RawURLEncoding_DecodeString E d = (decoded, None) ->
      json_Unmarshal_slice E decoded = (arr, Some err) ->
      HandleVPTxs E cp txn block
      = ([], Returned (None, Some (wrapError
                ("failed to unmarshal disclosure array: " +:+ Error err) err))))
  /\ (forall (t : Transaction) (err : option error) (tr : list event),
      HandleVPTxs E cp txn block = (tr, Returned (Some t, err)) ->
      Forall (fun d => exists decoded arr name,
                base64_RawURLEncoding_DecodeString E d = (decoded, None)
                /\ json_Unmarshal_slice E decoded = (arr, None)
                /\ (3 <= length arr)%nat
                /\ arr !! 1%nat = Some (JString name))
             (disclosures_of E txn)).
Proof.
  split; [|split].
  - intros i d entries decoded err Hi Hes Hd.
    apply HandleVPTxs_disclosure_error. unfold disclosedJson_of.
    fold (disclosures_of E txn).
    rewrite <- (take_drop_middle _ _ _ Hi).
    rewrite (compile_disclosures_entries E _ _ entries _ Hes).
    cbn [compile_disclosures]. rewrite Hd. reflexivity.
  - intros i d entries decoded arr err Hi Hes Hd Hu.
    apply HandleVPTxs_disclosure_error. unfold disclosedJson_of.
    fold (disclosures_of E txn).
    rewrite <- (take_drop_middle _ _ _ Hi).
    rewrite (compile_disclosures_entries E _ _ entries _ Hes).
    cbn [compile_disclosures]. rewrite Hd, Hu. reflexivity.
  - intros t err tr H.
    destruct (HandleVPTxs_success E cp txn block t err tr H)
      as (m & jsonBytes & Hm & _).
    destruct (disclosedJson_of_inl E txn _ _ Hm) as (es & Hes & _).
    clear Hm H. set (ds := disclosures_of E txn) in *. clearbody ds.
    induction Hes as [|d e ds es Hde _ IH]; constructor; [|exact IH].
    destruct Hde as (decoded & arr & Hd & Hu & H1 & H2).
    exists decoded, arr, e.1. repeat split; try assumption.
    apply lookup_lt_Some in H2. lia.
Qed.

Lemma HandleVPTxs_rejects_undecodable_disclosure_witness :
  HandleVPTxs (Scenario.env []) Scenario.cp
    (Scenario.presentation [Scenario.d_alice; Scenario.d_bad]) (Scenario.block 7 [])
  = ([], Returned (None, Some (wrapError
       "failed to decode disclosure: illegal base64 data" Ref.corrupt_input))).
Proof.
  apply (proj1 (HandleVPTxs_rejects_undecodable_disclosure (Scenario.env [])
                  Scenario.cp _ (Scenario.block 7 []))
           1%nat Scenario.d_bad [("name", JString "Alice")] [] Ref.corrupt_input).
  - reflexivity.
  - constructor; [|constructor]. do 2 eexists. repeat split; reflexivity.
  - reflexivity.
Defined.

(** The claim of C2 as it stands fails on an array of four elements: the
    token is the base64url text of [["s","n","v","x"]] and the presentation
    is accepted. *)
Lemma HandleVPTxs_accepts_four_elements :
  (exists decoded,
     Ref.RawURLEncoding_DecodeString Scenario.d_four = (decoded, None)
     /\ Ref.Unmarshal_slice decoded
        = ([JString "s"; JString "n"; JString "v"; JString "x"], None))
  /\ exists t,
       HandleVPTxs (Scenario.env []) Scenario.cp
         (Scenario.presentation [Scenario.d_four]) (Scenario.block 7 [])
       = ([], Returned (Some t, None)).
Proof.
  split.
  - eexists. split; reflexivity.
  - eexists. vm_compute. reflexivity.
Qed.

(** An array too short to have a second element ends the call in a panic
    ([["s"]] here), and so does a second element that is not a string. *)
Lemma HandleVPTxs_short_disclosure_panics :
  HandleVPTxs (Scenario.env []) Scenario.cp
    (Scenario.presentation [Scenario.d_one]) (Scenario.block 7 [])
  = ([], Panicked (IndexOutOfRange 1 1)).
Proof. vm_compute. reflexivity. Qed.

(** C5.  The identifier of a transaction returned by [HandleVPTxs] is the
    upper-case hexadecimal text of the SHA-256 digest of [jsonBytes], the
    serialized claim set, followed by the salt: 8 bytes that read, least
    significant byte first, as the block height converted to [uint64]. *)
Theorem HandleVPTxs_TxHash (E : Env) (cp : Node) (txn : bytes) (block : ResultBlock)
    (t : Transaction) (err : option error) (tr : list event) :
  HandleVPTxs E cp txn block = (tr, Returned (Some t, err)) ->
  exists disclosedJson jsonBytes,
    disclosedJson_of E txn = ([], Returned (inl disclosedJson))
    /\ json_Marshal E disclosedJson = (jsonBytes, None)
    /\ Transaction_payload t = Some jsonBytes
    /\ length (PutUint64 (GoInt.uint (block_height block))) = 8%nat
    /\ Uint64 (PutUint64 (GoInt.uint (block_height block)))
       = GoInt.uint (block_height block)
    /\ Transaction_TxHash t
       = Some (fmt_X (SHA256.Sum256
                 (jsonBytes ++ PutUint64 (GoInt.uint (block_height block))))).
Proof.
  intros H. destruct (HandleVPTxs_success E cp txn block t err tr H)
    as (m & jsonBytes & Hm & Hj & Hp & Hh & _ & _).
  exists m, jsonBytes. split; [exact Hm|]. split; [exact Hj|]. split; [exact Hp|].
  split; [reflexivity|]. split; [|exact Hh].
  apply Uint64_PutUint64. unfold GoInt.uint, GoInt.two64.
  apply Z.mod_pos_bound. lia.
Qed.

Lemma HandleVPTxs_TxHash_witness :
  exists t jsonBytes,
    HandleVPTxs (Scenario.env []) Scenario.cp
      (Scenario.presentation [Scenario.d_alice]) (Scenario.block 7 [])
    = ([], Returned (Some t, None))
    /\ Transaction_payload t = Some jsonBytes
    /\ Transaction_TxHash t
       = Some (fmt_X (SHA256.Sum256 (jsonBytes ++ PutUint64 (GoInt.uint 7)))).
Proof.
  assert (Hex : exists t,
            HandleVPTxs (Scenario.env []) Scenario.cp
              (Scenario.presentation [Scenario.d_alice]) (Scenario.block 7 [])
            = ([], Returned (Some t, None)))
    by (eexists; vm_compute; reflexivity).
  destruct Hex as [t Hr].
  destruct (HandleVPTxs_TxHash _ _ _ _ _ _ _ Hr)
    as (m & jsonBytes & _ & _ & Hp & _ & _ & Hh).
  exists t, jsonBytes. repeat split; assumption.
Defined.

(** The identifier of the presentation that discloses
    [["salt1","name","Alice"]] in a block of height 7. *)
Lemma HandleVPTxs_TxHash_example :
  exists t,
    HandleVPTxs (Scenario.env []) Scenario.cp
      (Scenario.presentation [Scenario.d_alice]) (Scenario.block 7 [])
    = ([], Returned (Some t, None))
    /\ Transaction_TxHash t
       = Some "4E4D59ED8FEEFB10093E2B350BBD61EFC67EF4FC3CD49AB58D3A2185F6305D7B".
Proof. eexists. split; vm_compute; reflexivity. Qed.

(** C8, as amended.  When the disclosures of a presentation all decode, the
    claim set handed to the serializer binds ["@type"] to [VP_TYPE], binds
    every other disclosed claim name to the value of the last disclosure of
    that name, in the order received, and binds nothing else.  A disclosed
    claim named ["@type"] is overwritten by the constant. *)
Theorem disclosedJson_last_write_wins (E : Env) (txn : bytes)
    (disclosedJson : gmap string JSON) (tr : list event) :
  disclosedJson_of E txn = (tr, Returned (inl disclosedJson)) ->
  exists entries,
    Forall2 (disclosure_entry E) (disclosures_of E txn) entries
    /\ disclosedJson !! "@type" = Some (JString VP_TYPE)
    /\ (forall name, name <> "@type" ->
          disclosedJson !! name
          = snd <$> last (filter (fun e => e.1 = name) entries))
    /\ (forall name, is_Some (disclosedJson !! name)
          <-> name = "@type" \/ name ∈ entries.*1).
Proof.
  intros H. destruct (disclosedJson_of_inl E txn _ _ H) as (es & Hes & ->).
  exists es. split; [exact Hes|]. split; [apply lookup_insert_eq|].
  assert (Hlook : forall name, name <> "@type" ->
            <["@type" := JString VP_TYPE]>
              (foldl (fun acc e => <[e.1 := e.2]> acc) (∅ : gmap string JSON) es)
              !! name
            = snd <$> last (filter (fun e => e.1 = name) es)).
  { intros name Hne. rewrite lookup_insert_ne by congruence.
    rewrite foldl_insert_lookup, lookup_empty.
    destruct (last _); reflexivity. }
  split; [exact Hlook|].
  intros name. destruct (decide (name = "@type")) as [->|Hne].
  - rewrite lookup_insert_eq. split; [left; reflexivity | eauto].
  - rewrite Hlook by exact Hne. split.
    + intros [v Hv]. right.
      destruct (last (filter (fun e => e.1 = name) es)) as [e|] eqn:Hl; [|discriminate].
      apply last_Some_elem_of in Hl. apply list_elem_of_filter in Hl as [He Hin].
      rewrite <- He. apply list_elem_of_fmap. exists e. auto.
    + intros [?|Hin]; [contradiction|].
      apply list_elem_of_fmap in Hin as (e & -> & Hin).
      assert (Hf : e ∈ filter (fun e0 : string * JSON => e0.1 = e.1) es).
      { apply list_elem_of_filter. auto. }
      destruct (last (filter (fun e0 : string * JSON => e0.1 = e.1) es))
        as [e'|] eqn:Hl; [eauto|].
      apply last_None in Hl. rewrite Hl in Hf. inversion Hf.
Qed.

(** Two disclosures of the claim [name], Alice then Bob: Bob stays. *)
Lemma disclosedJson_last_write_wins_witness :
  exists disclosedJson,
    disclosedJson_of (Scenario.env [])
      (Scenario.presentation [Scenario.d_alice; Scenario.d_bob])
    = ([], Returned (inl disclosedJson))
    /\ disclosedJson !! "@type" = Some (JString VP_TYPE)
    /\ disclosedJson !! "name" = Some (JString "Bob").
Proof.
  assert (Hex : exists m,
            disclosedJson_of (Scenario.env [])
              (Scenario.presentation [Scenario.d_alice; Scenario.d_bob])
            = ([], Returned (inl m)))
    by (eexists; vm_compute; reflexivity).
  destruct Hex as [m Hm]. exists m. split; [exact Hm|].
  destruct (disclosedJson_last_write_wins _ _ _ _ Hm)
    as (entries & Hes & Htype & Hlast & _).
  split; [exact Htype|].
  rewrite Hlast by discriminate.
  assert (Hentries : entries = [("name", JString "Alice"); ("name", JString "Bob")]).
  { assert (Hds : disclosures_of (Scenario.env [])
                    (Scenario.presentation [Scenario.d_alice; Scenario.d_bob])
                  = [Scenario.d_alice; Scenario.d_bob]) by (vm_compute; reflexivity).
    rewrite Hds in Hes.
    apply Forall2_cons_inv_l in Hes as ([n1 v1] & es1 & He1 & Hes & ->).
    apply Forall2_cons_inv_l in Hes as ([n2 v2] & es2 & He2 & Hes & ->).
    apply Forall2_nil_inv_l in Hes as ->.
    destruct He1 as (d1 & a1 & Hd1 & Hu1 & H11 & H12).
    destruct He2 as (d2 & a2 & Hd2 & Hu2 & H21 & H22).
    vm_compute in Hd1. injection Hd1 as <-.
    vm_compute in Hu1. injection Hu1 as <-.
    vm_compute in Hd2. injection Hd2 as <-.
    vm_compute in Hu2. injection Hu2 as <-.
    cbn in H11, H12, H21, H22.
    injection H11 as <-. injection H12 as <-.
    injection H21 as <-. injection H22 as <-. reflexivity. }
  rewrite Hentries. reflexivity.
Defined.

(** The scenario of one disclosure [["salt1","name","Alice"]]: the claim
    set is exactly the two bindings of [name] and ["@type"]. *)
Lemma disclosedJson_one_disclosure :
  disclosedJson_of (Scenario.env []) (Scenario.presentation [Scenario.d_alice])
  = ([], Returned (inl (<["@type" := JString VP_TYPE]>
                          (<["name" := JString "Alice"]> ∅)))).
Proof. vm_compute. reflexivity. Qed.

(** The claim of C8 as it stands fails for a disclosed claim named
    ["@type"]: the token is the base64url text of [["s","@type","X"]], its
    entry is read, and the claim set binds ["@type"] to [VP_TYPE], not to
    the disclosed value. *)
Lemma disclosedJson_type_claim_overwritten :
  disclosure_entry (Scenario.env []) Scenario.d_type ("@type", JString "X")
  /\ exists disclosedJson,
       disclosedJson_of (Scenario.env []) (Scenario.presentation [Scenario.d_type])
       = ([], Returned (inl disclosedJson))
       /\ disclosedJson !! "@type" = Some (JString VP_TYPE)
       /\ disclosedJson !! "@type" <> Some (JString "X").
Proof.
  split.
  - do 2 eexists. repeat split; reflexivity.
  - eexists. split; [vm_compute; reflexivity|].
    split; [vm_compute; reflexivity | vm_compute; discriminate].
Qed.

(** ** Transactions of a block *)

(** A lookup issues exactly one request, for the URL of the hash. *)
Lemma Node_Tx_trace (E : Env) (cp : Node) (hash : string) :
  (Node_Tx E cp hash).1
  = [EvHttpGet (txServiceAPI cp +:+ "/cosmos/tx/v1beta1/txs/" +:+ hash)].
Proof.
  unfold Node_Tx. rewrite bind_call. cbn [fst]. f_equal.
  destruct (http_Get E _) as [[resp|] [e|]]; try reflexivity.
  destruct (negb _); [reflexivity|].
  destruct (Body resp) as [body [e|]]; [reflexivity|].
  destruct (json_Unmarshal_Transaction E body) as [convTx [e|]]; reflexivity.
Qed.

(** C4, as amended.  When the synthesis of the transaction at position 0
    returns an error, [Txs] returns that error and no transaction at all:
    the siblings of the block are not looked up and the caller receives no
    result for them. *)
Theorem Txs_first_failure_aborts (E : Env) (cp : Node) (block : ResultBlock)
    (tmTx : bytes) (rest : list bytes) (txResponse : option Transaction) (err : error) :
  Block_Txs (ResultBlock_Block block) = tmTx :: rest ->
  HandleVPTxs E cp tmTx block = ([], Returned (txResponse, Some err)) ->
  Txs E cp block = ([], Returned ([], Some err)).
Proof.
  intros Htxs H. unfold Txs. rewrite Htxs. cbn [Txs_loop Nat.eqb].
  rewrite H. reflexivity.
Qed.

Lemma Txs_first_failure_aborts_witness :
  Txs (Scenario.env []) Scenario.cp
    (Scenario.block 7 [Scenario.presentation [Scenario.d_bad];
                       Scenario.tx1; Scenario.tx2])
  = ([], Returned ([], Some (wrapError
       "failed to decode disclosure: illegal base64 data" Ref.corrupt_input))).
Proof.
  apply (Txs_first_failure_aborts (Scenario.env []) Scenario.cp _
           (Scenario.presentation [Scenario.d_bad])
           [Scenario.tx1; Scenario.tx2] None).
  - reflexivity.
  - vm_compute. reflexivity.
Defined.

(** The claim of C4 as it stands fails on a block whose presentation holds
    a token that is not base64url text: both siblings would be found by
    hash, and the caller of [Txs] receives the error and no result. *)
Lemma Txs_siblings_not_returned :
  (exists t1 t2, lookup_ok (Scenario.env []) Scenario.cp Scenario.tx1 t1
                 /\ lookup_ok (Scenario.env []) Scenario.cp Scenario.tx2 t2)
  /\ exists err,
       Txs (Scenario.env []) Scenario.cp
         (Scenario.block 7 [Scenario.presentation [Scenario.d_bad];
                            Scenario.tx1; Scenario.tx2])
       = ([], Returned ([], Some err)).
Proof.
  split.
  - eexists _, _. split; vm_compute; reflexivity.
  - eexists. vm_compute. reflexivity.
Qed.

(** The loop from a position [i >= 1] on: it returns a result exactly when
    every remaining transaction is found by hash, and then the slice holds
    the results at the positions of their transactions. *)
Lemma Txs_loop_lookups (E : Env) (cp : Node) (block : ResultBlock)
    (txs : list bytes) (i : nat) (txResponses res : list (option Transaction))
    (tr : list event) :
  (1 <= i)%nat -> (i + length txs = length txResponses)%nat ->
  Txs_loop E cp block i txs txResponses = (tr, Returned (res, None))
  <-> exists ts, Forall2 (lookup_ok E cp) txs ts
        /\ res = take i txResponses ++ ts
        /\ tr = map (fun tmTx => EvHttpGet (lookup_url_of cp tmTx)) txs.
Proof.
  revert i txResponses res tr.
  induction txs as [|tmTx txs IH]; intros i arr res tr Hi Hlen.
  - cbn in *. split.
    + intros [= <- <-]. exists []. split; [constructor|].
      rewrite take_ge by lia. rewrite app_nil_r. auto.
    + intros (ts & Hts & -> & ->). apply Forall2_nil_inv_l in Hts as ->.
      rewrite take_ge by lia. rewrite app_nil_r. reflexivity.
  - cbn [Txs_loop length] in *.
    destruct i as [|i]; [lia|]. cbn [Nat.eqb].
    pose proof (Node_Tx_trace E cp (fmt_X (Tx_Hash tmTx))) as Htr.
    fold (lookup_url_of cp tmTx) in Htr.
    destruct (Node_Tx E cp (fmt_X (Tx_Hash tmTx))) as [t0 o] eqn:Hcall.
    cbn in Htr. subst t0.
    assert (Hstep : forall t,
      take (S (S i)) (<[S i := t]> arr) = take (S i) arr ++ [t]).
    { intros t. rewrite take_insert_lt by lia.
      destruct (lookup_lt_is_Some_2 arr (S i)) as [x Hx]; [lia|].
      rewrite (take_S_r _ _ _ Hx). rewrite insert_app_r_alt by (rewrite length_take; lia).
      rewrite length_take. replace (S i - S i `min` length arr)%nat with 0%nat by lia.
      reflexivity. }
    destruct o as [[t [e|]]| |]; cbn.
    + split; [discriminate|]. intros (ts & Hts & _).
      apply Forall2_cons_inv_l in Hts as (t' & ts' & Hok & _ & _).
      unfold lookup_ok in Hok. rewrite Hcall in Hok. discriminate.
    + specialize (IH (S (S i)) (<[S i := t]> arr)).
      destruct (Txs_loop E cp block (S (S i)) txs (<[S i := t]> arr)) as [tr' o'] eqn:Hrec.
      split.
      * intros [= <- ->].
        destruct (proj1 (IH res tr' ltac:(lia) ltac:(rewrite length_insert; lia)) eq_refl)
          as (ts & Hts & -> & ->).
        exists (t :: ts). split; [constructor; [exact Hcall | exact Hts]|].
        rewrite Hstep, <- app_assoc. auto.
      * intros (ts & Hts & -> & ->).
        apply Forall2_cons_inv_l in Hts as (t' & ts' & Hok & Hts' & ->).
        unfold lookup_ok in Hok. rewrite Hcall in Hok. injection Hok as <-.
        assert (Hgoal : (tr', o') = (map (fun tmTx => EvHttpGet (lookup_url_of cp tmTx)) txs,
                         Returned (take (S i) arr ++ t :: ts', None))).
        { apply IH; [lia | rewrite length_insert; lia |].
          exists ts'. split; [exact Hts'|]. rewrite Hstep, <- app_assoc. auto. }
        injection Hgoal as -> ->. reflexivity.
    + split; [discriminate|]. intros (ts & Hts & _).
      apply Forall2_cons_inv_l in Hts as (t' & ts' & Hok & _ & _).
      unfold lookup_ok in Hok. rewrite Hcall in Hok. discriminate.
    + split; [discriminate|]. intros (ts & Hts & _).
      apply Forall2_cons_inv_l in Hts as (t' & ts' & Hok & _ & _).
      unfold lookup_ok in Hok. rewrite Hcall in Hok. discriminate.
Qed.

(** C9.  For a block that starts with [tmTx], [Txs] returns a result
    exactly when [HandleVPTxs] returns one for [tmTx] and every other
    transaction is found by its hash through [Tx]; the result then holds
    the synthesized transaction at position 0 and the looked-up ones at
    the positions of their transactions, and the requests issued are the
    lookups of the positions 1, 2, ... in this order. *)
Theorem Txs_routes_by_position (E : Env) (cp : Node) (block : ResultBlock)
    (tmTx : bytes) (rest : list bytes) (tr : list event)
    (res : list (option Transaction)) :
  Block_Txs (ResultBlock_Block block) = tmTx :: rest ->
  Txs E cp block = (tr, Returned (res, None))
  <-> exists t0 ts,
        HandleVPTxs E cp tmTx block = ([], Returned (t0, None))
        /\ Forall2 (lookup_ok E cp) rest ts
        /\ res = t0 :: ts
        /\ tr = map (fun tmTx => EvHttpGet (lookup_url_of cp tmTx)) rest.
Proof.
  intros Htxs. unfold Txs. rewrite Htxs. cbn [Txs_loop Nat.eqb length replicate].
  pose proof (HandleVPTxs_silent E cp tmTx block) as Hsil.
  destruct (HandleVPTxs E cp tmTx block) as [t' o] eqn:Hvp. cbn in Hsil. subst t'.
  rewrite bind_silent.
  destruct o as [[t0 [e|]]| |].
  - split; [discriminate|]. intros (? & ? & [=] & _).
  - cbn [insert list_insert].
    assert (Hloop := Txs_loop_lookups E cp block rest 1 (t0 :: replicate (length rest) None)).
    cbn [take] in Hloop.
    split.
    + intros H. apply Hloop in H; [|lia|cbn; rewrite length_replicate; lia].
      destruct H as (ts & Hts & -> & ->). exists t0, ts. auto.
    + intros (t0' & ts & [= <-] & Hts & -> & ->).
      apply Hloop; [lia | cbn; rewrite length_replicate; lia|].
      exists ts. auto.
  - split; [discriminate|]. intros (? & ? & [=] & _).
  - split; [discriminate|]. intros (? & ? & [=] & _).
Qed.

Lemma Txs_routes_by_position_witness :
  exists t0 t1,
    HandleVPTxs (Scenario.env []) Scenario.cp
      (Scenario.presentation [Scenario.d_alice])
      (Scenario.block 7 [Scenario.presentation [Scenario.d_alice];
                         Scenario.tx1; Scenario.tx2])
    = ([], Returned (Some t0, None))
    /\ Txs (Scenario.env []) Scenario.cp
         (Scenario.block 7 [Scenario.presentation [Scenario.d_alice];
                            Scenario.tx1; Scenario.tx2])
       = ([EvHttpGet (lookup_url_of Scenario.cp Scenario.tx1);
           EvHttpGet (lookup_url_of Scenario.cp Scenario.tx2)],
          Returned ([Some t0; Some t1; None], None)).
Proof.
  eexists _, _. split; [vm_compute; reflexivity|].
  apply (Txs_routes_by_position (Scenario.env []) Scenario.cp _
           (Scenario.presentation [Scenario.d_alice])
           [Scenario.tx1; Scenario.tx2]); [reflexivity|].
  eexists _, _. split; [vm_compute; reflexivity|].
  split; [|split; reflexivity].
  constructor; [vm_compute; reflexivity|].
  constructor; [vm_compute; reflexivity|]. constructor.
Defined.

(** C10.  For a block without transactions [Txs] returns an empty sequence
    and a nil error whatever the node, the transaction service and the
    libraries would answer, and issues no call: neither [HandleVPTxs] nor
    [Tx] is reached. *)
Theorem Txs_empty_block (E : Env) (cp : Node) (header : Header) :
  Txs E cp {| ResultBlock_Block := {| Block_Header := header; Block_Txs := [] |} |}
  = ([], Returned ([], None)).
Proof. reflexivity. Qed.


(** * Further properties of the code *)

(** ** Genesis chunks: failures *)

(** Chunks that are served, decode and are not the last are passed: the
    reassembly asks for them in order, keeps their bytes and goes on with
    the chunk after them. *)
Section GenesisPrefix.

Context (E : Env) (cp : Node).
Context (chunks : list ResultGenesisChunk) (payloads : list bytes).

Hypothesis Hserve : forall (i : nat) (c : ResultGenesisChunk),
  chunks !! i = Some c ->
  client_GenesisChunked E (Z.of_nat i) = (Some c, None)
  /\ GoInt.uint (GoInt.int (TotalChunks c - 1)) <> Z.of_nat i.
Hypothesis Hdecode :
  Forall2 (fun c p => base64_StdEncoding_DecodeString E (Data c) = (p, None))
          chunks payloads.
Hypothesis Hrange : Z.of_nat (length chunks) < GoInt.two64.

Lemma getGenesisChunks_prefix_from (n k fuel : nat) :
  (k + n = length chunks)%nat ->
  getGenesisChunksStartingFrom E (n + fuel) cp (Z.of_nat k)
  = after_chunks (map (fun i : nat => EvGenesisChunked (Z.of_nat i)) (seq k n))
      (concat (drop k payloads))
      (getGenesisChunksStartingFrom E fuel cp (Z.of_nat (length chunks))).
Proof using Hserve Hdecode Hrange.
  unfold GoInt.two64 in Hrange.
  revert k. induction n as [|n IH]; intros k Hk.
  - cbn [seq map plus]. replace k with (length chunks) by lia.
    rewrite drop_ge by (apply Forall2_length in Hdecode; lia).
    unfold after_chunks. cbn.
    destruct (getGenesisChunksStartingFrom E fuel cp _) as [t [[bz [e|]]| |]] eqn:Hrest;
      try reflexivity.
    apply getGenesisChunks_no_partial in Hrest as ->. reflexivity.
  - destruct (lookup_lt_is_Some_2 chunks k) as [c Hc]; [lia|].
    destruct (Hserve k c Hc) as [Hrpc Hnot].
    destruct (Forall2_lookup_l _ _ _ _ _ Hdecode Hc) as (p & Hp & Hb64).
    cbn [plus getGenesisChunksStartingFrom]. rewrite bind_call, Hrpc. cbn beta iota.
    rewrite Hb64.
    replace (Z.of_nat k =? _) with false by (symmetry; apply Z.eqb_neq; congruence).
    rewrite uint_small by (unfold GoInt.two64; lia).
    replace (Z.of_nat k + 1) with (Z.of_nat (S k)) by lia.
    rewrite (IH (S k)) by lia.
    rewrite (drop_S _ _ _ Hp). cbn [concat seq map].
    unfold after_chunks. cbn [fst snd].
    destruct (getGenesisChunksStartingFrom E fuel cp _) as [t [[bz [e|]]| |]];
      cbn; rewrite ?app_nil_r, ?app_assoc; reflexivity.
Qed.
End GenesisPrefix.

(** X1.  Whatever the node answers, an error returned by
    [getGenesisChunksStartingFrom] comes with no bytes, and its message is
    one of the two messages of the function on the chunk asked for last,
    with the total that chunk reported. *)
Theorem getGenesisChunks_error_annotated (E : Env) (cp : Node) (fuel : nat) (id : Z)
    (bz : bytes) (err : error) (tr : list event) :
  getGenesisChunksStartingFrom E fuel cp id = (tr, Returned (bz, Some err)) ->
  bz = []
  /\ exists (k : Z) (res : ResultGenesisChunk) (e : option error),
       last tr = Some (EvGenesisChunked k)
       /\ client_GenesisChunked E k = (Some res, e)
       /\ (Error err = "error while getting genesis chunk " +:+ fmt_d k
                        +:+ " out of " +:+ fmt_d (TotalChunks res)
           \/ Error err = "error while decoding genesis chunk " +:+ fmt_d k
                        +:+ " out of " +:+ fmt_d (TotalChunks res)).
Proof.
  revert id tr bz err. induction fuel as [|fuel IH]; intros id tr bz err; [discriminate|].
  cbn [getGenesisChunksStartingFrom]. rewrite bind_call.
  destruct (client_GenesisChunked E id) as [[res|] [e|]] eqn:Hrpc; cbn;
    try discriminate.
  - intros [= <- <- <-]. split; [reflexivity|].
    exists id, res, (Some e). cbn. auto.
  - destruct (base64_StdEncoding_DecodeString E (Data res)) as [b [e|]]; cbn.
    + intros [= <- <- <-]. split; [reflexivity|].
      exists id, res, None. cbn. auto.
    + destruct (id =? _); cbn; [discriminate|].
      destruct (getGenesisChunksStartingFrom E fuel cp _) as [t' [[nx [e|]]| |]] eqn:Hrec;
        cbn; try discriminate.
      intros [= <- <- <-]. split; [reflexivity|].
      destruct (IH _ _ _ _ Hrec) as (_ & k & res' & e' & Hlast & Hk & Hmsg).
      exists k, res', e'. split; [|auto].
      rewrite app_nil_r. destruct t' as [|ev t']; [discriminate|].
      rewrite last_cons_cons. exact Hlast.
Qed.

Lemma getGenesisChunks_error_annotated_witness :
  ([] : bytes) = []
  /\ exists (k : Z) (res : ResultGenesisChunk) (e : option error),
       last [EvGenesisChunked 0; EvGenesisChunked 1] = Some (EvGenesisChunked k)
       /\ client_GenesisChunked Cases.env_bad_chunk k = (Some res, e)
       /\ (Error (errorString "error while decoding genesis chunk 1 out of 2")
           = "error while getting genesis chunk " +:+ fmt_d k
             +:+ " out of " +:+ fmt_d (TotalChunks res)
           \/ Error (errorString "error while decoding genesis chunk 1 out of 2")
              = "error while decoding genesis chunk " +:+ fmt_d k
                +:+ " out of " +:+ fmt_d (TotalChunks res)).
Proof.
  apply (getGenesisChunks_error_annotated Cases.env_bad_chunk Scenario.cp 2 0).
  vm_compute. reflexivity.
Defined.

Section GenesisFailure.

Context (E : Env) (cp : Node).
Context (chunks : list ResultGenesisChunk) (payloads : list bytes).

Hypothesis Hserve : forall (i : nat) (c : ResultGenesisChunk),
  chunks !! i = Some c ->
  client_GenesisChunked E (Z.of_nat i) = (Some c, None)
  /\ GoInt.uint (GoInt.int (TotalChunks c - 1)) <> Z.of_nat i.
Hypothesis Hdecode :
  Forall2 (fun c p => base64_StdEncoding_DecodeString E (Data c) = (p, None))
          chunks payloads.
Hypothesis Hrange : Z.of_nat (length chunks) < GoInt.two64.

(** X2.  When the chunks before chunk k are served, decode and are not
    the last, and chunk k is served but does not decode, the reassembly
    asks for the chunks 0, ..., k and returns no bytes and the error
    "error while decoding genesis chunk k out of" the total of chunk k. *)
Theorem getGenesisChunks_decode_failure (fuel : nat) (c : ResultGenesisChunk)
    (bz : bytes) (err : error) :
  client_GenesisChunked E (Z.of_nat (length chunks)) = (Some c, None) ->
  base64_StdEncoding_DecodeString E (Data c) = (bz, Some err) ->
  getGenesisChunksStartingFrom E (length chunks + S fuel) cp 0
  = (map (fun i : nat => EvGenesisChunked (Z.of_nat i)) (seq 0 (S (length chunks))),
     Returned ([], Some (errorString
       ("error while decoding genesis chunk " +:+ fmt_d (Z.of_nat (length chunks))
        +:+ " out of " +:+ fmt_d (TotalChunks c))))).
Proof using Hserve Hdecode Hrange.
  intros Hrpc Hb64.
  change 0 with (Z.of_nat 0).
  rewrite (getGenesisChunks_prefix_from E cp chunks payloads Hserve Hdecode Hrange
             (length chunks) 0 (S fuel) eq_refl).
  cbn [getGenesisChunksStartingFrom]. rewrite bind_call, Hrpc. cbn beta iota.
  rewrite Hb64. unfold after_chunks. cbn [fst snd ret].
  rewrite seq_S, map_app. reflexivity.
Qed.

(** X3.  When the chunks before chunk k are passed and the fetch of chunk
    k fails with a nil result, the reassembly ends in a nil-pointer panic
    after the requests 0, ..., k, whatever k is. *)
Theorem getGenesisChunks_fetch_failure_at (fuel : nat) (err : error) :
  client_GenesisChunked E (Z.of_nat (length chunks)) = (None, Some err) ->
  getGenesisChunksStartingFrom E (length chunks + S fuel) cp 0
  = (map (fun i : nat => EvGenesisChunked (Z.of_nat i)) (seq 0 (S (length chunks))),
     Panicked NilDereference).
Proof using Hserve Hdecode Hrange.
  intros Hrpc.
  change 0 with (Z.of_nat 0).
  rewrite (getGenesisChunks_prefix_from E cp chunks payloads Hserve Hdecode Hrange
             (length chunks) 0 (S fuel) eq_refl).
  rewrite (getGenesisChunks_fetch_error_nil E cp fuel _ err Hrpc).
  unfold after_chunks. cbn [fst snd].
  rewrite seq_S, map_app. reflexivity.
Qed.
End GenesisFailure.

Lemma getGenesisChunks_decode_failure_witness :
  getGenesisChunksStartingFrom Cases.env_bad_chunk 2 Scenario.cp 0
  = ([EvGenesisChunked 0; EvGenesisChunked 1],
     Returned ([], Some (errorString
       "error while decoding genesis chunk 1 out of 2"))).
Proof.
  apply (getGenesisChunks_decode_failure Cases.env_bad_chunk Scenario.cp
           [{| ChunkNumber := 0; TotalChunks := 2; Data := "ew==" |}]
           [Ref.lit "{"]
           ltac:(intros [|i] c; cbn; intros [= <-]; split;
                 [reflexivity | vm_compute; discriminate])
           ltac:(repeat constructor)
           ltac:(vm_compute; reflexivity)
           0 {| ChunkNumber := 1; TotalChunks := 2; Data := "!" |} []
           Ref.corrupt_input); reflexivity.
Defined.

Lemma getGenesisChunks_fetch_failure_at_witness :
  getGenesisChunksStartingFrom (Cases.env_with Cases.chunk_then_down Cases.uneven_pages)
    2 Scenario.cp 0
  = ([EvGenesisChunked 0; EvGenesisChunked 1], Panicked NilDereference).
Proof.
  apply (getGenesisChunks_fetch_failure_at
           (Cases.env_with Cases.chunk_then_down Cases.uneven_pages) Scenario.cp
           [{| ChunkNumber := 0; TotalChunks := 2; Data := "ew==" |}]
           [Ref.lit "{"]
           ltac:(intros [|i] c; cbn; intros [= <-]; split;
                 [reflexivity | vm_compute; discriminate])
           ltac:(repeat constructor)
           ltac:(vm_compute; reflexivity)
           0 (errorString "connection reset")); reflexivity.
Defined.

(** X4.  When every chunk asked for is served and decodes but none reports
    its own index plus one as the total, the reassembly does not return:
    with any recursion depth it has asked for that many chunks and goes
    on. *)
Theorem getGenesisChunks_total_never_reached (E : Env) (cp : Node)
    (chunk : nat -> ResultGenesisChunk) (payload : nat -> bytes) (fuel : nat) :
  (forall i : nat, (i < fuel)%nat ->
     client_GenesisChunked E (Z.of_nat i) = (Some (chunk i), None)
     /\ base64_StdEncoding_DecodeString E (Data (chunk i)) = (payload i, None)
     /\ GoInt.uint (GoInt.int (TotalChunks (chunk i) - 1)) <> Z.of_nat i) ->
  Z.of_nat fuel < GoInt.two64 ->
  getGenesisChunksStartingFrom E fuel cp 0
  = (map (fun i : nat => EvGenesisChunked (Z.of_nat i)) (seq 0 fuel), OutOfFuel).
Proof.
  intros Hall Hfuel.
  pose proof (getGenesisChunks_prefix_from E cp (chunk <$> seq 0 fuel)
                (payload <$> seq 0 fuel)) as Hpre.
  rewrite length_fmap, length_seq in Hpre.
  assert (H1 : forall (i : nat) (c : ResultGenesisChunk),
             (chunk <$> seq 0 fuel) !! i = Some c ->
             client_GenesisChunked E (Z.of_nat i) = (Some c, None)
             /\ GoInt.uint (GoInt.int (TotalChunks c - 1)) <> Z.of_nat i).
  { intros i c Hi. rewrite list_lookup_fmap in Hi.
    destruct (seq 0 fuel !! i) as [j|] eqn:Hj; [|discriminate].
    apply lookup_seq in Hj as [-> Hlt]. injection Hi as <-.
    destruct (Hall i Hlt) as (? & _ & ?). auto. }
  assert (H2 : Forall2 (fun c p => base64_StdEncoding_DecodeString E (Data c) = (p, None))
                 (chunk <$> seq 0 fuel) (payload <$> seq 0 fuel)).
  { apply Forall2_fmap, Forall_Forall2_diag, Forall_forall.
    intros i Hi. apply list_elem_of_In, in_seq in Hi. apply Hall. lia. }
  specialize (Hpre H1 H2 Hfuel fuel 0%nat 0%nat eq_refl).
  rewrite Nat.add_0_r in Hpre. change 0 with (Z.of_nat 0). rewrite Hpre.
  unfold after_chunks. cbn. rewrite app_nil_r. reflexivity.
Qed.

Lemma getGenesisChunks_total_never_reached_witness :
  getGenesisChunksStartingFrom (Cases.env_with Cases.chunk_of_none Cases.uneven_pages)
    3 Scenario.cp 0
  = ([EvGenesisChunked 0; EvGenesisChunked 1; EvGenesisChunked 2], OutOfFuel).
Proof.
  apply (getGenesisChunks_total_never_reached
           (Cases.env_with Cases.chunk_of_none Cases.uneven_pages) Scenario.cp
           (fun i => {| ChunkNumber := Z.of_nat i; TotalChunks := 0; Data := "" |})
           (fun _ => [])).
  - intros i Hi. repeat split. vm_compute. destruct i as [|[|[|i]]]; [discriminate..|lia].
  - vm_compute. reflexivity.
Defined.

(** ** The genesis document *)

Lemma prefix_app (p s : string) : String.prefix p (p +:+ s) = true.
Proof.
  induction p as [|a p IH]; [destruct s; reflexivity|].
  change (String a p +:+ s) with (String a (p +:+ s)). cbn [String.prefix].
  destruct (ascii_dec a a); [exact IH | contradiction].
Qed.

(** A message that holds [substr] somewhere is found to contain it. *)
Lemma strings_Contains_app (a sub b : string) :
  strings_Contains (a +:+ sub +:+ b) sub = true.
Proof.
  induction a as [|c a IH].
  - change (EmptyString +:+ sub +:+ b) with (sub +:+ b).
    pose proof (prefix_app sub b) as Hp.
    destruct (sub +:+ b); cbn [strings_Contains]; rewrite Hp; reflexivity.
  - change (String c a +:+ sub +:+ b) with (String c (a +:+ sub +:+ b)).
    cbn [strings_Contains]. rewrite IH. apply orb_true_r.
Qed.

Lemma getGenesisChunked_first_request (E : Env) (GenesisDoc : Type)
    (tmjson : bytes -> option GenesisDoc * option error) (fuel : nat) (cp : Node) :
  exists rest, (getGenesisChunked E GenesisDoc tmjson (S fuel) cp).1
               = EvGenesisChunked 0 :: rest.
Proof.
  unfold getGenesisChunked. cbn [getGenesisChunksStartingFrom].
  rewrite bind_call.
  match goal with |- context [bind (_ :: ?t, ?o) ?k] =>
    destruct o as [[bz [e|]]| |]; cbn; try (eexists; reflexivity) end.
  destruct (tmjson bz) as [g [e|]]; cbn; eexists; reflexivity.
Qed.

(** X5.  [Genesis] turns to the chunked API exactly when the plain request
    fails with an error whose message contains "use the genesis_chunked API
    instead": then chunk 0 is the next request; otherwise the answer of the
    node, result and error, is returned as it is and no chunk is asked
    for. *)
Theorem Genesis_chunked_iff_marker (E : Env) (GenesisDoc : Type)
    (res : option (ResultGenesis GenesisDoc)) (err : option error)
    (tmjson : bytes -> option GenesisDoc * option error) (fuel : nat) (cp : Node) :
  ((exists e, err = Some e /\ strings_Contains (Error e) chunked_marker = true)
   -> exists rest,
        (Node_Genesis E GenesisDoc (res, err) tmjson (S fuel) cp).1
        = CallGenesis :: CallNode (EvGenesisChunked 0) :: rest)
  /\ (~ (exists e, err = Some e /\ strings_Contains (Error e) chunked_marker = true)
      -> Node_Genesis E GenesisDoc (res, err) tmjson (S fuel) cp
         = ([CallGenesis], Returned (res, err))).
Proof.
  unfold Node_Genesis. split.
  - intros (e & -> & ->).
    destruct (getGenesisChunked_first_request E GenesisDoc tmjson fuel cp) as [rest Hr].
    destruct (getGenesisChunked E GenesisDoc tmjson (S fuel) cp) as [t o].
    cbn in Hr. subst t. cbn. eexists. reflexivity.
  - intros Hno. destruct err as [e|]; [|reflexivity].
    destruct (strings_Contains (Error e) chunked_marker) eqn:Hc; [|reflexivity].
    exfalso. apply Hno. eauto.
Qed.

Lemma Genesis_chunked_iff_marker_witness :
  (exists rest,
     (Node_Genesis (Scenario.env []) JSON (None, Some Cases.too_large)
        Cases.parse_doc 2 Scenario.cp).1
     = CallGenesis :: CallNode (EvGenesisChunked 0) :: rest)
  /\ Node_Genesis (Scenario.env []) JSON
       (None, Some (errorString "connection refused")) Cases.parse_doc 2 Scenario.cp
     = ([CallGenesis], Returned (None, Some (errorString "connection refused"))).
Proof.
  split.
  - apply (proj1 (Genesis_chunked_iff_marker (Scenario.env []) JSON None
                    (Some Cases.too_large) Cases.parse_doc 1 Scenario.cp)).
    exists Cases.too_large. split; [reflexivity | vm_compute; reflexivity].
  - apply (proj2 (Genesis_chunked_iff_marker (Scenario.env []) JSON None
                    (Some (errorString "connection refused")) Cases.parse_doc 1
                    Scenario.cp)).
    intros (e & [= <-] & Hc). vm_compute in Hc. discriminate Hc.
Defined.

(** X6.  When the plain request is refused with the marker and the node
    serves N >= 1 chunks that report N as their total and decode,
    [Genesis] asks for the chunks in order and hands their concatenated
    bytes to the parser: it returns the parsed document, or the error of
    the parser and no result. *)
Theorem Genesis_chunked_document (E : Env) (GenesisDoc : Type)
    (res : option (ResultGenesis GenesisDoc)) (e : error)
    (tmjson : bytes -> option GenesisDoc * option error)
    (chunks : list ResultGenesisChunk) (payloads : list bytes)
    (fuel : nat) (cp : Node) :
  strings_Contains (Error e) chunked_marker = true ->
  (forall (i : nat) (c : ResultGenesisChunk),
     chunks !! i = Some c ->
     client_GenesisChunked E (Z.of_nat i) = (Some c, None)
     /\ TotalChunks c = Z.of_nat (length chunks)) ->
  Forall2 (fun c p => base64_StdEncoding_DecodeString E (Data c) = (p, None))
          chunks payloads ->
  GoInt.is_int (Z.of_nat (length chunks)) ->
  (1 <= length chunks)%nat -> (length chunks <= fuel)%nat ->
  Node_Genesis E GenesisDoc (res, Some e) tmjson fuel cp
  = (CallGenesis
       :: map (fun i : nat => CallNode (EvGenesisChunked (Z.of_nat i)))
              (seq 0 (length chunks)),
     Returned match tmjson (concat payloads) with
              | (genDoc, None) => (Some {| ResultGenesis_Genesis := genDoc |}, None)
              | (_, Some err) => (None, Some err)
              end).
Proof.
  intros Hmark Hserve Hdecode Hint Hn Hfuel.
  unfold Node_Genesis. rewrite Hmark. unfold getGenesisChunked.
  change 0 with (Z.of_nat 0).
  rewrite (getGenesisChunks_from E cp chunks payloads Hserve Hdecode Hint
             (length chunks) 0 fuel eq_refl Hn Hfuel).
  cbn [bind]. change (drop 0 payloads) with payloads.
  assert (Hcalls : forall l : list nat,
            CallNode <$> map (fun i : nat => EvGenesisChunked (Z.of_nat i)) l
            = map (fun i : nat => CallNode (EvGenesisChunked (Z.of_nat i))) l).
  { induction l as [|i l IH]; cbn; [reflexivity | rewrite IH; reflexivity]. }
  destruct (tmjson (concat payloads)) as [genDoc [err|]]; cbn [ret];
    rewrite app_nil_r, Hcalls; reflexivity.
Qed.

Lemma Genesis_chunked_document_witness :
  Node_Genesis (Scenario.env []) JSON (None, Some Cases.too_large)
    Cases.parse_doc 2 Scenario.cp
  = ([CallGenesis; CallNode (EvGenesisChunked 0); CallNode (EvGenesisChunked 1)],
     Returned (Some {| ResultGenesis_Genesis := Some (JObject []) |}, None)).
Proof.
  apply (Genesis_chunked_document (Scenario.env []) JSON None Cases.too_large
           Cases.parse_doc Scenario.genesis_chunks Scenario.genesis_payloads
           2 Scenario.cp).
  - vm_compute. reflexivity.
  - intros [|[|i]] c; cbn; intros [= <-]; split; reflexivity.
  - repeat constructor.
  - vm_compute. split; [discriminate | reflexivity].
  - cbn. lia.
  - cbn. lia.
Defined.

(** ** Validator pages: every node *)

Lemma Validators_loop_result (E : Env) (fuel : nat) (height page perPage : Z)
    (vals : ResultValidators) (tr : list event)
    (r : option ResultValidators) (err : option error) :
  Validators_loop E fuel height vals page perPage = (tr, Returned (r, err)) ->
  (r = None /\ is_Some err)
  \/ (exists v, r = Some v /\ err = None /\ Count v = Total v
                /\ BlockHeight v = BlockHeight vals).
Proof.
  revert vals page tr. induction fuel as [|fuel IH]; intros vals page tr; [discriminate|].
  cbn [Validators_loop]. rewrite bind_call.
  destruct (client_Validators E height page perPage) as [result [e|]]; cbn.
  - intros [= <- <- <-]. left. eauto.
  - destruct result as [result|]; cbn; [|discriminate].
    destruct (Z.eqb_spec (GoInt.int (Count vals + Count result)) (Total result)) as [Heq|Hne].
    + cbn. intros [= <- <- <-]. right. eexists. repeat split. exact Heq.
    + destruct (Validators_loop E fuel height _ _ perPage) as [t' o] eqn:Hrec. cbn.
      intros [= <- ->]. destruct (IH _ _ _ Hrec) as [?|(v & ? & ? & ? & Hh)]; [left; auto|].
      right. exists v. auto.
Qed.

(** X7.  Whatever the node answers, [Validators] returns either an error
    and no validator set, or a set and no error; a set that is returned has
    its count equal to its total and carries the height asked for. *)
Theorem Validators_never_partial (E : Env) (fuel : nat) (cp : Node) (height : Z)
    (tr : list event) (r : option ResultValidators) (err : option error) :
  Node_Validators E fuel cp height = (tr, Returned (r, err)) ->
  (r = None /\ is_Some err)
  \/ (exists vals, r = Some vals /\ err = None /\ Count vals = Total vals
                   /\ BlockHeight vals = height).
Proof. unfold Node_Validators. apply Validators_loop_result. Qed.

Lemma Validators_never_partial_witness :
  (Some {| BlockHeight := 42;
           Validators := [Scenario.validator 0; Scenario.validator 1;
                          Scenario.validator 2];
           Count := 3; Total := 3 |} = None /\ is_Some (@None error))
  \/ (exists vals,
        Some {| BlockHeight := 42;
                Validators := [Scenario.validator 0; Scenario.validator 1;
                               Scenario.validator 2];
                Count := 3; Total := 3 |} = Some vals
        /\ @None error = None /\ Count vals = Total vals /\ BlockHeight vals = 42).
Proof.
  apply (Validators_never_partial
           (Cases.env_with Cases.chunk_then_down Cases.uneven_pages) 2 Scenario.cp 42
           [EvValidators 42 1 100; EvValidators 42 2 100]).
  vm_compute. reflexivity.
Defined.

Lemma Validators_loop_requests (E : Env) (fuel : nat) (height page perPage : Z)
    (vals : ResultValidators) :
  - GoInt.two63 <= page -> page + Z.of_nat fuel < GoInt.two63 ->
  (Validators_loop E fuel height vals page perPage).1
  = map (fun k : nat => EvValidators height (page + Z.of_nat k) perPage)
        (seq 0 (length (Validators_loop E fuel height vals page perPage).1))
  /\ (length (Validators_loop E fuel height vals page perPage).1 <= fuel)%nat.
Proof.
  unfold GoInt.two63.
  revert vals page. induction fuel as [|fuel IH]; intros vals page Hlo Hhi;
    [split; [reflexivity | cbn [Validators_loop fst length]; lia]|].
  cbn [Validators_loop]. rewrite bind_call. cbn [fst length seq map].
  rewrite Z.add_0_r.
  destruct (client_Validators E height page perPage) as [[result|] [e|]]; cbn [fst snd ret throw length seq map];
    try (split; [reflexivity | lia]).
  destruct (_ =? _); cbn [fst ret length seq map]. 1: (split; [reflexivity | lia]).
  rewrite (int_small (page + 1)) by (unfold GoInt.is_int, GoInt.two63; lia).
  destruct (IH {| BlockHeight := BlockHeight vals;
                  Validators := Validators vals ++ Validators result;
                  Count := GoInt.int (Count vals + Count result);
                  Total := Total result |} (page + 1) ltac:(lia) ltac:(lia)) as [Htr Hlen].
  split; [|lia].
  f_equal. rewrite Htr at 1. rewrite <- seq_shift, map_map.
  apply map_ext. intros k. f_equal. lia.
Qed.

Lemma Validators_loop_step (E : Env) (fuel : nat) (height page perPage : Z)
    (vals result : ResultValidators) :
  client_Validators E height page perPage = (Some result, None) ->
  Validators_loop E (S fuel) height vals page perPage
  = if Count (collect_page vals result) =? Total result
    then ([EvValidators height page perPage], Returned (Some (collect_page vals result), None))
    else ((EvValidators height page perPage
            :: (Validators_loop E fuel height (collect_page vals result)
                  (GoInt.int (page + 1)) perPage).1),
          (Validators_loop E fuel height (collect_page vals result)
                  (GoInt.int (page + 1)) perPage).2).
Proof.
  intros H. cbn [Validators_loop]. rewrite bind_call, H. cbn beta iota.
  unfold collect_page. cbn [Count Total].
  destruct (_ =? _); reflexivity.
Qed.

(** The turns of the loop: [pages] are the answers after which the loop
    went on, and the answer to the next request, if the bound lets it be
    made, ends the call. *)
Lemma Validators_loop_turns (E : Env) (fuel : nat) (height page perPage : Z)
    (vals : ResultValidators) :
  - GoInt.two63 <= page -> page + Z.of_nat fuel < GoInt.two63 ->
  exists pages : list ResultValidators,
    (forall (j : nat) (r : ResultValidators),
        pages !! j = Some r ->
        client_Validators E height (page + Z.of_nat j) perPage = (Some r, None)
        /\ Count (foldl collect_page vals (take (S j) pages)) <> Total r)
    /\ ((length pages = fuel
         /\ Validators_loop E fuel height vals page perPage
            = (map (fun k : nat => EvValidators height (page + Z.of_nat k) perPage)
                   (seq 0 fuel), OutOfFuel))
        \/ ((length pages < fuel)%nat
            /\ (Validators_loop E fuel height vals page perPage).1
               = map (fun k : nat => EvValidators height (page + Z.of_nat k) perPage)
                     (seq 0 (S (length pages)))
            /\ match client_Validators E height
                       (page + Z.of_nat (length pages)) perPage with
               | (_, Some err) =>
                   (Validators_loop E fuel height vals page perPage).2
                   = Returned (None, Some err)
               | (None, None) =>
                   (Validators_loop E fuel height vals page perPage).2
                   = Panicked NilDereference
               | (Some r, None) =>
                   Count (foldl collect_page vals (pages ++ [r])) = Total r
                   /\ (Validators_loop E fuel height vals page perPage).2
                      = Returned (Some (foldl collect_page vals (pages ++ [r])), None)
               end)).
Proof.
  unfold GoInt.two63.
  revert vals page. induction fuel as [|fuel IH]; intros vals page Hlo Hhi.
  { exists []. split; [intros j r Hj; discriminate Hj|]. left. split; reflexivity. }
  destruct (client_Validators E height page perPage) as [result err] eqn:Hc.
  destruct err as [err|].
  { exists []. split; [intros j r Hj; discriminate Hj|]. right.
    cbn [length Validators_loop seq map]. change (Z.of_nat 0) with 0.
    rewrite bind_call. rewrite !Z.add_0_r. rewrite Hc.
    split; [lia|]. split; [reflexivity | destruct result; reflexivity]. }
  destruct result as [result|].
  2:{ exists []. split; [intros j r Hj; discriminate Hj|]. right.
      cbn [length Validators_loop seq map]. change (Z.of_nat 0) with 0.
      rewrite bind_call. rewrite !Z.add_0_r. rewrite Hc.
      split; [lia|]. split; reflexivity. }
  rewrite (Validators_loop_step E fuel height page perPage vals result Hc).
  destruct (Count (collect_page vals result) =? Total result) eqn:Hstop.
  { exists []. split; [intros j r Hj; discriminate Hj|]. right.
    cbn [length seq map]. change (Z.of_nat 0) with 0. rewrite !Z.add_0_r. rewrite Hc.
    split; [lia|]. split; [reflexivity|].
    cbn [app foldl snd]. split; [apply Z.eqb_eq, Hstop | reflexivity]. }
  rewrite (int_small (page + 1)) by (unfold GoInt.is_int, GoInt.two63; lia).
  destruct (IH (collect_page vals result) (page + 1) ltac:(lia) ltac:(lia))
    as (pages & Hpages & Hend).
  exists (result :: pages). split.
  { intros [|j] r Hj.
    - injection Hj as <-. rewrite Z.add_0_r. split; [exact Hc|].
      cbn [take foldl]. change (take 0 pages) with (@nil ResultValidators).
      cbn [foldl]. apply Z.eqb_neq, Hstop.
    - destruct (Hpages j r Hj) as [Hrpc Hne]. split.
      + rewrite <- Hrpc. f_equal. lia.
      + exact Hne. }
  cbn [length fst snd].
  replace (page + Z.of_nat (S (length pages)))
    with (page + 1 + Z.of_nat (length pages)) by lia.
  assert (Hshift : forall n : nat,
             EvValidators height page perPage
               :: map (fun k : nat => EvValidators height (page + 1 + Z.of_nat k) perPage)
                    (seq 0 n)
             = map (fun k : nat => EvValidators height (page + Z.of_nat k) perPage)
                   (seq 0 (S n))).
  { intros n. cbn [seq map]. rewrite Z.add_0_r. f_equal.
    rewrite <- seq_shift, map_map. apply map_ext. intros k. f_equal. lia. }
  destruct Hend as [[Hlen Hrun] | (Hlen & Htr & Hlast)].
  - left. split; [lia|]. rewrite Hrun. cbn [fst snd]. rewrite Hshift. reflexivity.
  - right. split; [lia|]. split.
    + rewrite Htr. apply Hshift.
    + exact Hlast.
Qed.

(** X8.  Whatever the node answers and however the call ends,
    [Validators] asks for the pages 1, 2, 3, ... of the height, 100 entries
    a page, without gap or repetition, one request an iteration: a request
    is followed by another exactly when it was answered with a page and no
    error and the running count differs from the total of that page.  A
    call that runs out of its bound on the iterations has made that many
    requests; any other call has made one request more than the number of
    answers it went on from, and the answer to this last request decides
    how it ends. *)
Theorem Validators_requests_consecutive (E : Env) (fuel : nat) (cp : Node) (height : Z) :
  Z.of_nat fuel + 1 < GoInt.two63 ->
  (Node_Validators E fuel cp height).1
  = map (fun p : nat => EvValidators height (Z.of_nat p) 100)
        (seq 1 (length (Node_Validators E fuel cp height).1))
  /\ (length (Node_Validators E fuel cp height).1 <= fuel)%nat
  /\ exists pages : list ResultValidators,
       (forall (j : nat) (r : ResultValidators),
           pages !! j = Some r ->
           client_Validators E height (Z.of_nat j + 1) 100 = (Some r, None)
           /\ Count (collect_pages height (take (S j) pages)) <> Total r)
       /\ ((length pages = fuel
            /\ length (Node_Validators E fuel cp height).1 = fuel
            /\ (Node_Validators E fuel cp height).2 = OutOfFuel)
           \/ ((length pages < fuel)%nat
               /\ length (Node_Validators E fuel cp height).1 = S (length pages)
               /\ match client_Validators E height
                          (Z.of_nat (length pages) + 1) 100 with
                  | (_, Some err) =>
                      (Node_Validators E fuel cp height).2
                      = Returned (None, Some err)
                  | (None, None) =>
                      (Node_Validators E fuel cp height).2
                      = Panicked NilDereference
                  | (Some r, None) =>
                      Count (collect_pages height (pages ++ [r])) = Total r
                      /\ (Node_Validators E fuel cp height).2
                         = Returned (Some (collect_pages height (pages ++ [r])), None)
                  end)).
Proof.
  intros Hfuel. unfold Node_Validators.
  destruct (Validators_loop_requests E fuel height 1 100
              {| BlockHeight := height; Validators := []; Count := 0; Total := 0 |})
    as [Htr Hlen]; [unfold GoInt.two63; lia | lia |].
  split; [|split; [exact Hlen|]].
  { rewrite Htr at 1. rewrite <- seq_shift, map_map.
    apply map_ext. intros k. f_equal. lia. }
  destruct (Validators_loop_turns E fuel height 1 100
              {| BlockHeight := height; Validators := []; Count := 0; Total := 0 |})
    as (pages & Hpages & Hend); [unfold GoInt.two63; lia | lia |].
  exists pages. split.
  { intros j r Hj. destruct (Hpages j r Hj) as [Hrpc Hne].
    split; [|exact Hne]. rewrite <- Hrpc. f_equal. lia. }
  replace (Z.of_nat (length pages) + 1) with (1 + Z.of_nat (length pages)) by lia.
  destruct Hend as [[Hn Hrun] | (Hn & Hreq & Hlast)].
  - left. split; [exact Hn|]. rewrite Hrun. cbn [fst snd].
    rewrite length_map, length_seq. split; reflexivity.
  - right. split; [exact Hn|]. split; [|exact Hlast].
    rewrite Hreq, length_map, length_seq. reflexivity.
Qed.

Lemma Validators_requests_consecutive_witness :
  (Node_Validators (Cases.env_with Cases.chunk_then_down Cases.uneven_pages)
     5 Scenario.cp 42).1
  = map (fun p : nat => EvValidators 42 (Z.of_nat p) 100)
        (seq 1 (length (Node_Validators
                          (Cases.env_with Cases.chunk_then_down Cases.uneven_pages)
                          5 Scenario.cp 42).1))
  /\ (length (Node_Validators
                (Cases.env_with Cases.chunk_then_down Cases.uneven_pages)
                5 Scenario.cp 42).1 <= 5)%nat
  /\ exists pages : list ResultValidators,
       (forall (j : nat) (r : ResultValidators),
           pages !! j = Some r ->
           Cases.uneven_pages 42 (Z.of_nat j + 1) 100 = (Some r, None)
           /\ Count (collect_pages 42 (take (S j) pages)) <> Total r)
       /\ ((length pages = 5%nat
            /\ length (Node_Validators
                         (Cases.env_with Cases.chunk_then_down Cases.uneven_pages)
                         5 Scenario.cp 42).1 = 5%nat
            /\ (Node_Validators
                  (Cases.env_with Cases.chunk_then_down Cases.uneven_pages)
                  5 Scenario.cp 42).2 = OutOfFuel)
           \/ ((length pages < 5)%nat
               /\ length (Node_Validators
                            (Cases.env_with Cases.chunk_then_down Cases.uneven_pages)
                            5 Scenario.cp 42).1 = S (length pages)
               /\ match Cases.uneven_pages 42 (Z.of_nat (length pages) + 1) 100 with
                  | (_, Some err) =>
                      (Node_Validators
                         (Cases.env_with Cases.chunk_then_down Cases.uneven_pages)
                         5 Scenario.cp 42).2
                      = Returned (None, Some err)
                  | (None, None) =>
                      (Node_Validators
                         (Cases.env_with Cases.chunk_then_down Cases.uneven_pages)
                         5 Scenario.cp 42).2
                      = Panicked NilDereference
                  | (Some r, None) =>
                      Count (collect_pages 42 (pages ++ [r])) = Total r
                      /\ (Node_Validators
                            (Cases.env_with Cases.chunk_then_down Cases.uneven_pages)
                            5 Scenario.cp 42).2
                         = Returned (Some (collect_pages 42 (pages ++ [r])), None)
                  end)).
Proof.
  apply (Validators_requests_consecutive
           (Cases.env_with Cases.chunk_then_down Cases.uneven_pages) 5 Scenario.cp 42).
  vm_compute. reflexivity.
Defined.

(** ** Validator pages: pages of any size *)

Lemma collect_pages_Validators (height : Z) (pages : list ResultValidators) :
  Validators (collect_pages height pages) = concat (Validators <$> pages)
  /\ BlockHeight (collect_pages height pages) = height.
Proof.
  unfold collect_pages.
  assert (H : forall vals,
            Validators (foldl collect_page vals pages)
            = Validators vals ++ concat (Validators <$> pages)
            /\ BlockHeight (foldl collect_page vals pages) = BlockHeight vals).
  { induction pages as [|r pages IH]; intros vals; cbn.
    - rewrite app_nil_r. auto.
    - destruct (IH (collect_page vals r)) as [-> ->]. cbn.
      rewrite app_assoc. auto. }
  apply (H {| BlockHeight := height; Validators := []; Count := 0; Total := 0 |}).
Qed.

(** Pages that are served and leave the running count different from the
    total are passed. *)
Section ValidatorsPrefix.
Context (E : Env) (cp : Node) (height : Z) (pages : list ResultValidators).

Hypothesis Hpages : forall (j : nat) (r : ResultValidators),
  pages !! j = Some r ->
  client_Validators E height (Z.of_nat j + 1) 100 = (Some r, None)
  /\ Count (collect_pages height (take (S j) pages)) <> Total r.
Hypothesis Hrange : Z.of_nat (length pages) + 1 < GoInt.two63.

Lemma Validators_loop_prefix (n j fuel : nat) :
  (j + n = length pages)%nat ->
  Validators_loop E (n + fuel) height (collect_pages height (take j pages))
    (Z.of_nat j + 1) 100
  = (map (fun p : nat => EvValidators height (Z.of_nat p) 100) (seq (S j) n)
       ++ (Validators_loop E fuel height (collect_pages height pages)
             (Z.of_nat (length pages) + 1) 100).1,
     (Validators_loop E fuel height (collect_pages height pages)
             (Z.of_nat (length pages) + 1) 100).2).
Proof using Hpages Hrange.
  unfold GoInt.two63 in Hrange.
  revert j. induction n as [|n IH]; intros j Hj.
  - cbn [plus seq map app]. replace j with (length pages) by lia.
    rewrite take_ge by lia. destruct (Validators_loop _ _ _ _ _ _); reflexivity.
  - destruct (lookup_lt_is_Some_2 pages j) as [r Hr]; [lia|].
    destruct (Hpages j r Hr) as [Hrpc Hne].
    cbn [plus]. rewrite (Validators_loop_step E _ _ _ _ _ r Hrpc).
    assert (Hacc : collect_page (collect_pages height (take j pages)) r
                   = collect_pages height (take (S j) pages)).
    { rewrite (take_S_r _ _ _ Hr). unfold collect_pages. rewrite foldl_app. reflexivity. }
    rewrite Hacc.
    replace (_ =? _) with false by (symmetry; apply Z.eqb_neq; exact Hne).
    rewrite int_small by (unfold GoInt.is_int, GoInt.two63; lia).
    replace (Z.of_nat j + 1 + 1) with (Z.of_nat (S j) + 1) by lia.
    rewrite (IH (S j)) by lia. cbn [fst snd seq map app].
    replace (Z.of_nat j + 1) with (Z.of_nat (S j)) by lia. reflexivity.
Qed.

(** X9.  When the pages before the last are served without the running
    count reaching the reported total, and the next page makes the count
    equal to its total, [Validators] asks for exactly these pages and
    returns the validators of all pages concatenated in page order,
    whatever the sizes of the pages, with the total of the last page. *)
Theorem Validators_concatenates_pages (fuel : nat) (r : ResultValidators) :
  client_Validators E height (Z.of_nat (length pages) + 1) 100 = (Some r, None) ->
  Count (collect_pages height (pages ++ [r])) = Total r ->
  exists vals,
    Node_Validators E (length pages + S fuel) cp height
    = (map (fun p : nat => EvValidators height (Z.of_nat p) 100)
           (seq 1 (S (length pages))),
       Returned (Some vals, None))
    /\ Validators vals = concat (Validators <$> (pages ++ [r]))
    /\ Count vals = Total vals
    /\ Total vals = Total r
    /\ BlockHeight vals = height.
Proof using Hpages Hrange.
  intros Hrpc Hstop. exists (collect_pages height (pages ++ [r])).
  destruct (collect_pages_Validators height (pages ++ [r])) as [Hv Hh].
  assert (Hlast : collect_pages height (pages ++ [r])
                  = collect_page (collect_pages height pages) r).
  { unfold collect_pages. rewrite foldl_app. reflexivity. }
  assert (Htot : Total (collect_pages height (pages ++ [r])) = Total r).
  { rewrite Hlast. reflexivity. }
  split; [|split; [exact Hv|split; [congruence|split; [exact Htot|exact Hh]]]].
  unfold Node_Validators.
  pose proof (Validators_loop_prefix (length pages) 0 (S fuel) eq_refl) as Hpre.
  change (take 0 pages) with (@nil ResultValidators) in Hpre.
  unfold collect_pages at 1 in Hpre. cbn [foldl] in Hpre.
  change (Z.of_nat 0 + 1) with 1 in Hpre. rewrite Hpre.
  rewrite (Validators_loop_step E _ _ _ _ _ r Hrpc).
  rewrite <- Hlast. rewrite Hstop, Z.eqb_refl. cbn [fst snd].
  rewrite (seq_S (length pages)), map_app. cbn [map].
  replace (Z.of_nat (1 + length pages)) with (Z.of_nat (length pages) + 1) by lia.
  reflexivity.
Qed.

(** X10.  When the pages before page p are served without the running
    count reaching the total and the request for page p fails, [Validators]
    returns that error and no validator set after the requests 1, ..., p:
    the validators collected so far are dropped. *)
Theorem Validators_page_failure (fuel : nat) (result : option ResultValidators)
    (err : error) :
  client_Validators E height (Z.of_nat (length pages) + 1) 100 = (result, Some err) ->
  Node_Validators E (length pages + S fuel) cp height
  = (map (fun p : nat => EvValidators height (Z.of_nat p) 100)
         (seq 1 (S (length pages))),
     Returned (None, Some err)).
Proof using Hpages Hrange.
  intros Hrpc. unfold Node_Validators.
  pose proof (Validators_loop_prefix (length pages) 0 (S fuel) eq_refl) as Hpre.
  change (take 0 pages) with (@nil ResultValidators) in Hpre.
  unfold collect_pages at 1 in Hpre. cbn [foldl] in Hpre.
  change (Z.of_nat 0 + 1) with 1 in Hpre. rewrite Hpre.
  cbn [Validators_loop]. rewrite bind_call, Hrpc. cbn [fst snd ret].
  rewrite (seq_S (length pages)), map_app. cbn [map].
  replace (Z.of_nat (1 + length pages)) with (Z.of_nat (length pages) + 1) by lia.
  reflexivity.
Qed.

End ValidatorsPrefix.

Lemma Validators_concatenates_pages_witness :
  exists vals,
    Node_Validators (Cases.env_with Cases.chunk_then_down Cases.uneven_pages)
      2 Scenario.cp 42
    = ([EvValidators 42 1 100; EvValidators 42 2 100], Returned (Some vals, None))
    /\ Validators vals
       = [Scenario.validator 0; Scenario.validator 1; Scenario.validator 2]
    /\ Count vals = Total vals
    /\ Total vals = 3
    /\ BlockHeight vals = 42.
Proof.
  apply (Validators_concatenates_pages
           (Cases.env_with Cases.chunk_then_down Cases.uneven_pages) Scenario.cp 42
           [{| BlockHeight := 42;
               Validators := [Scenario.validator 0; Scenario.validator 1];
               Count := 2; Total := 3 |}]
           ltac:(intros [|j] r; cbn; intros [= <-]; split;
                 [reflexivity | vm_compute; discriminate])
           ltac:(vm_compute; reflexivity)
           0 {| BlockHeight := 42; Validators := [Scenario.validator 2];
                Count := 1; Total := 3 |});
    vm_compute; reflexivity.
Defined.

Lemma Validators_page_failure_witness :
  Node_Validators (Cases.env_with Cases.chunk_then_down Cases.page_then_down)
    2 Scenario.cp 42
  = ([EvValidators 42 1 100; EvValidators 42 2 100],
     Returned (None, Some (errorString "connection reset"))).
Proof.
  apply (Validators_page_failure
           (Cases.env_with Cases.chunk_then_down Cases.page_then_down) Scenario.cp 42
           [{| BlockHeight := 42;
               Validators := [Scenario.validator 0; Scenario.validator 1];
               Count := 2; Total := 3 |}]
           ltac:(intros [|j] r; cbn; intros [= <-]; split;
                 [reflexivity | vm_compute; discriminate])
           ltac:(vm_compute; reflexivity)
           0 None (errorString "connection reset")).
  reflexivity.
Defined.

(** X11.  When every page asked for is served but the running count never
    equals the reported total, [Validators] does not return: with any bound
    on the iterations it has asked for that many pages and goes on. *)
Theorem Validators_total_never_reached (E : Env) (cp : Node) (height : Z)
    (page : nat -> ResultValidators) (fuel : nat) :
  (forall j : nat, (j < fuel)%nat ->
     client_Validators E height (Z.of_nat j + 1) 100 = (Some (page j), None)
     /\ Count (collect_pages height (page <$> seq 0 (S j))) <> Total (page j)) ->
  Z.of_nat fuel + 1 < GoInt.two63 ->
  Node_Validators E fuel cp height
  = (map (fun p : nat => EvValidators height (Z.of_nat p) 100) (seq 1 fuel),
     OutOfFuel).
Proof.
  intros Hall Hfuel. unfold Node_Validators.
  pose proof (Validators_loop_prefix E height (page <$> seq 0 fuel)) as Hpre.
  rewrite length_fmap, length_seq in Hpre.
  assert (H1 : forall (j : nat) (r : ResultValidators),
             (page <$> seq 0 fuel) !! j = Some r ->
             client_Validators E height (Z.of_nat j + 1) 100 = (Some r, None)
             /\ Count (collect_pages height (take (S j) (page <$> seq 0 fuel)))
                <> Total r).
  { intros j r Hj. rewrite list_lookup_fmap in Hj.
    destruct (seq 0 fuel !! j) as [i|] eqn:Hi; [|discriminate].
    apply lookup_seq in Hi as [-> Hlt]. injection Hj as <-.
    destruct (Hall j Hlt) as [Hrpc Hne]. split; [exact Hrpc|].
    rewrite <- fmap_take, take_seq. replace (S j `min` fuel)%nat with (S j) by lia.
    exact Hne. }
  specialize (Hpre H1 Hfuel fuel 0%nat 0%nat eq_refl).
  change (take 0 (page <$> seq 0 fuel)) with (@nil ResultValidators) in Hpre.
  unfold collect_pages at 1 in Hpre. cbn [foldl] in Hpre.
  change (Z.of_nat 0 + 1) with 1 in Hpre. rewrite Nat.add_0_r in Hpre. rewrite Hpre.
  cbn. rewrite app_nil_r. reflexivity.
Qed.

Lemma Validators_total_never_reached_witness :
  Node_Validators (Cases.env_with Cases.chunk_then_down Cases.empty_pages)
    3 Scenario.cp 42
  = ([EvValidators 42 1 100; EvValidators 42 2 100; EvValidators 42 3 100],
     OutOfFuel).
Proof.
  apply (Validators_total_never_reached
           (Cases.env_with Cases.chunk_then_down Cases.empty_pages) Scenario.cp 42
           (fun _ => {| BlockHeight := 42; Validators := []; Count := 0; Total := 1 |})).
  - intros j Hj. split; [reflexivity|].
    destruct j as [|[|[|j]]]; [vm_compute; discriminate..|lia].
  - vm_compute. reflexivity.
Defined.

(** ** Lookups by hash *)

(** X12.  [Tx] issues one request, for the URL of the hash.  It returns a
    transaction pointer and a nil error only for a response with status
    200 whose body is read and decoded without error; in every other case
    it returns an error and no transaction. *)
Theorem Tx_result (E : Env) (cp : Node) (hash : string) (tr : list event)
    (t : option Transaction) (err : option error) :
  Node_Tx E cp hash = (tr, Returned (t, err)) ->
  tr = [EvHttpGet (txServiceAPI cp +:+ "/cosmos/tx/v1beta1/txs/" +:+ hash)]
  /\ ((t = None /\ is_Some err)
      \/ (err = None
          /\ exists resp body,
               http_Get E (txServiceAPI cp +:+ "/cosmos/tx/v1beta1/txs/" +:+ hash)
                 = (Some resp, None)
               /\ StatusCode resp = 200
               /\ Body resp = (body, None)
               /\ json_Unmarshal_Transaction E body = (t, None))).
Proof.
  intros H. pose proof (Node_Tx_trace E cp hash) as Htr. rewrite H in Htr.
  cbn in Htr. split; [exact Htr|]. clear Htr. revert H.
  unfold Node_Tx. rewrite bind_call.
  destruct (http_Get E _) as [[resp|] [e|]] eqn:Hget; cbn;
    try discriminate; try (intros [= _ <- <-]; left; eauto).
  destruct (Z.eqb_spec (StatusCode resp) StatusOK) as [Hok|Hne]; cbn;
    [|intros [= _ <- <-]; left; eauto].
  destruct (Body resp) as [body [e|]] eqn:Hbody; cbn;
    [intros [= _ <- <-]; left; eauto|].
  destruct (json_Unmarshal_Transaction E body) as [convTx [e|]] eqn:Hjson; cbn;
    intros [= _ <- <-]; [left; eauto|].
  right. split; [reflexivity|]. exists resp, body. auto.
Qed.

Lemma Tx_result_witness :
  exists t,
    Node_Tx (Scenario.env []) Scenario.cp (fmt_X (Tx_Hash Scenario.tx1))
    = ([EvHttpGet (lookup_url_of Scenario.cp Scenario.tx1)], Returned (t, None))
    /\ exists resp body,
         http_Get (Scenario.env []) (lookup_url_of Scenario.cp Scenario.tx1)
           = (Some resp, None)
         /\ StatusCode resp = 200
         /\ Body resp = (body, None)
         /\ json_Unmarshal_Transaction (Scenario.env []) body = (t, None).
Proof.
  assert (Hex : exists t,
            Node_Tx (Scenario.env []) Scenario.cp (fmt_X (Tx_Hash Scenario.tx1))
            = ([EvHttpGet (lookup_url_of Scenario.cp Scenario.tx1)],
               Returned (t, None)))
    by (eexists; vm_compute; reflexivity).
  destruct Hex as [t Ht]. exists t. split; [exact Ht|].
  destruct (Tx_result _ _ _ _ _ _ Ht) as [_ [[_ [e He]]|[_ Hok]]];
    [discriminate He | exact Hok].
Defined.

(** ** Transactions of a block: failures *)

Lemma Txs_loop_result (E : Env) (cp : Node) (block : ResultBlock) (txs : list bytes)
    (i : nat) (arr res : list (option Transaction)) (tr : list event)
    (err : option error) :
  Txs_loop E cp block i txs arr = (tr, Returned (res, err)) ->
  (res = [] /\ is_Some err) \/ (err = None /\ length res = length arr).
Proof.
  revert i arr tr. induction txs as [|tmTx txs IH]; intros i arr tr.
  - cbn. intros [= <- <- <-]. right. auto.
  - cbn [Txs_loop].
    destruct (if (i =? 0)%nat then _ else _) as [t0 [[t [e|]]| |]]; cbn;
      try discriminate.
    + intros [= <- <- <-]. left. eauto.
    + destruct (Txs_loop E cp block (S i) txs (<[i:=t]> arr)) as [t' o] eqn:Hrec.
      intros [= <- ->]. destruct (IH _ _ _ Hrec) as [?|[? Hlen]]; [left; auto|].
      right. rewrite length_insert in Hlen. auto.
Qed.

(** X13.  Whatever the block and the answers, [Txs] returns either an
    error and an empty result, or no error and one result for each
    transaction of the block. *)
Theorem Txs_never_partial (E : Env) (cp : Node) (block : ResultBlock)
    (tr : list event) (res : list (option Transaction)) (err : option error) :
  Txs E cp block = (tr, Returned (res, err)) ->
  (res = [] /\ is_Some err)
  \/ (err = None /\ length res = length (Block_Txs (ResultBlock_Block block))).
Proof.
  unfold Txs. intros H. apply Txs_loop_result in H.
  rewrite length_replicate in H. exact H.
Qed.

Lemma Txs_never_partial_witness :
  exists res,
    Txs (Scenario.env []) Scenario.cp
      (Scenario.block 7 [Scenario.presentation [Scenario.d_alice];
                         Scenario.tx1; Scenario.tx2])
    = ([EvHttpGet (lookup_url_of Scenario.cp Scenario.tx1);
        EvHttpGet (lookup_url_of Scenario.cp Scenario.tx2)],
       Returned (res, None))
    /\ length res = 3%nat.
Proof.
  assert (Hex : exists res,
            Txs (Scenario.env []) Scenario.cp
              (Scenario.block 7 [Scenario.presentation [Scenario.d_alice];
                                 Scenario.tx1; Scenario.tx2])
            = ([EvHttpGet (lookup_url_of Scenario.cp Scenario.tx1);
                EvHttpGet (lookup_url_of Scenario.cp Scenario.tx2)],
               Returned (res, None)))
    by (eexists; vm_compute; reflexivity).
  destruct Hex as [res Hres]. exists res. split; [exact Hres|].
  destruct (Txs_never_partial _ _ _ _ _ _ Hres) as [[_ [e He]]|[_ Hlen]];
    [discriminate He | exact Hlen].
Defined.

Lemma Txs_loop_prefix (E : Env) (cp : Node) (block : ResultBlock)
    (txs1 txs2 : list bytes) (ts : list (option Transaction)) (i : nat)
    (arr : list (option Transaction)) :
  (1 <= i)%nat ->
  Forall2 (lookup_ok E cp) txs1 ts ->
  exists arr',
    Txs_loop E cp block i (txs1 ++ txs2) arr
    = (map (fun tmTx => EvHttpGet (lookup_url_of cp tmTx)) txs1
         ++ (Txs_loop E cp block (i + length txs1) txs2 arr').1,
       (Txs_loop E cp block (i + length txs1) txs2 arr').2).
Proof.
  intros Hi H. revert i arr Hi.
  induction H as [|tmTx t txs1 ts Hok _ IH]; intros i arr Hi.
  - exists arr. cbn. rewrite Nat.add_0_r.
    destruct (Txs_loop E cp block i txs2 arr); reflexivity.
  - cbn [app Txs_loop length map].
    destruct i as [|i]; [lia|]. cbn [Nat.eqb].
    unfold lookup_ok in Hok. rewrite Hok. cbn [bind].
    destruct (IH (S (S i)) (<[S i := t]> arr) ltac:(lia)) as [arr' Harr].
    exists arr'. rewrite Harr. cbn [fst snd app].
    replace (S i + S (length txs1))%nat with (S (S i) + length txs1)%nat by lia.
    destruct (Txs_loop E cp block (S (S i) + length txs1) txs2 arr'); reflexivity.
Qed.

(** X14.  When the presentation and the lookups of the transactions before
    position k + 1 succeed and the lookup at position k + 1 returns an
    error, [Txs] returns that error as it is and no result, and issues no
    lookup for the transactions after it. *)
Theorem Txs_lookup_failure (E : Env) (cp : Node) (block : ResultBlock)
    (tmTx : bytes) (rest : list bytes) (t0 : option Transaction)
    (k : nat) (ts : list (option Transaction)) (bad : bytes)
    (t : option Transaction) (err : error) :
  Block_Txs (ResultBlock_Block block) = tmTx :: rest ->
  HandleVPTxs E cp tmTx block = ([], Returned (t0, None)) ->
  Forall2 (lookup_ok E cp) (take k rest) ts ->
  rest !! k = Some bad ->
  (Node_Tx E cp (fmt_X (Tx_Hash bad))).2 = Returned (t, Some err) ->
  Txs E cp block
  = (map (fun tmTx => EvHttpGet (lookup_url_of cp tmTx)) (take (S k) rest),
     Returned ([], Some err)).
Proof.
  intros Htxs Hvp Hts Hk Hbad. unfold Txs. rewrite Htxs.
  cbn [Txs_loop Nat.eqb]. rewrite Hvp, bind_silent.
  rewrite <- (take_drop_middle _ _ _ Hk) at 1.
  destruct (Txs_loop_prefix E cp block (take k rest) (bad :: drop (S k) rest) ts 1
              (<[0%nat := t0]> (replicate (length (tmTx :: rest)) None))
              ltac:(lia) Hts) as [arr' ->].
  cbn [Txs_loop]. replace (1 + length (take k rest) =? 0)%nat with false by reflexivity.
  pose proof (Node_Tx_trace E cp (fmt_X (Tx_Hash bad))) as Htr.
  destruct (Node_Tx E cp (fmt_X (Tx_Hash bad))) as [tr o]. cbn in Htr, Hbad. subst.
  cbn [bind fst snd ret app].
  rewrite (take_S_r _ _ _ Hk), map_app. reflexivity.
Qed.

Lemma Txs_lookup_failure_witness :
  Txs (Scenario.env []) Scenario.cp
    (Scenario.block 7 [Scenario.presentation [Scenario.d_alice];
                       Scenario.tx1; Cases.tx3; Scenario.tx2])
  = ([EvHttpGet (lookup_url_of Scenario.cp Scenario.tx1);
      EvHttpGet (lookup_url_of Scenario.cp Cases.tx3)],
     Returned ([], Some (errorString "connection refused"))).
Proof.
  assert (Hvp : exists t0,
            HandleVPTxs (Scenario.env []) Scenario.cp
              (Scenario.presentation [Scenario.d_alice])
              (Scenario.block 7 [Scenario.presentation [Scenario.d_alice];
                                 Scenario.tx1; Cases.tx3; Scenario.tx2])
            = ([], Returned (t0, None)))
    by (eexists; vm_compute; reflexivity).
  destruct Hvp as [t0 Hvp].
  assert (Hok : exists t1, lookup_ok (Scenario.env []) Scenario.cp Scenario.tx1 t1)
    by (eexists; vm_compute; reflexivity).
  destruct Hok as [t1 Hok].
  apply (Txs_lookup_failure (Scenario.env []) Scenario.cp _
           (Scenario.presentation [Scenario.d_alice])
           [Scenario.tx1; Cases.tx3; Scenario.tx2] t0 1 [t1] Cases.tx3 None
           (errorString "connection refused")).
  - reflexivity.
  - exact Hvp.
  - constructor; [exact Hok | constructor].
  - reflexivity.
  - vm_compute. reflexivity.
Defined.

(** ** Verifiable presentations: crashes, shape and order *)

(** X15.  When the first disclosure token the loop does not get past
    decodes to an array of fewer than 3 elements, or to one whose second
    element is not a string, [HandleVPTxs] ends in a panic (an index out of
    range or a failed type assertion, never an error value), and so does
    [Txs] on every block that starts with this transaction. *)
Theorem HandleVPTxs_malformed_array_panics (E : Env) (cp : Node) (txn : bytes)
    (block : ResultBlock) (rest : list bytes) (i : nat) (d : string)
    (entries : list (string * JSON)) (decoded : bytes) (arr : list JSON) :
  Block_Txs (ResultBlock_Block block) = txn :: rest ->
  disclosures_of E txn !! i = Some d ->
  Forall2 (disclosure_entry E) (take i (disclosures_of E txn)) entries ->
  base64_RawURLEncoding_DecodeString E d = (decoded, None) ->
  json_Unmarshal_slice E decoded = (arr, None) ->
  (length arr < 3)%nat \/ (forall name, arr !! 1%nat <> Some (JString name)) ->
  exists p,
    HandleVPTxs E cp txn block = ([], Panicked p)
    /\ Txs E cp block = ([], Panicked p)
    /\ (p = InterfaceConversion
        \/ exists index, p = IndexOutOfRange index (Z.of_nat (length arr))
                         /\ Z.of_nat (length arr) <= index <= 2).
Proof.
  intros Htxs Hi Hes Hd Hu Hbad.
  assert (Hloop : exists p,
            compile_disclosures E (disclosures_of E txn) ∅ = ([], Panicked p)
            /\ (p = InterfaceConversion
                \/ exists index, p = IndexOutOfRange index (Z.of_nat (length arr))
                                 /\ Z.of_nat (length arr) <= index <= 2)).
  { rewrite <- (take_drop_middle _ _ _ Hi).
    rewrite (compile_disclosures_entries E _ _ entries _ Hes).
    cbn [compile_disclosures]. rewrite Hd, Hu.
    destruct (arr !! 1%nat) as [v|] eqn:H1.
    - destruct v as [| | |name| |];
        try (eexists; split; [reflexivity | left; reflexivity]).
      destruct (arr !! 2%nat) as [v2|] eqn:H2.
      + exfalso. destruct Hbad as [Hlen|Hno]; [|exact (Hno name eq_refl)].
        apply lookup_lt_Some in H2. lia.
      + eexists. split; [reflexivity|]. right. eexists. split; [reflexivity|].
        apply lookup_ge_None in H2. lia.
    - eexists. split; [reflexivity|]. right. eexists. split; [reflexivity|].
      apply lookup_ge_None in H1. lia. }
  destruct Hloop as (p & Hp & Hkind). exists p.
  assert (Hvp : HandleVPTxs E cp txn block = ([], Panicked p)).
  { unfold HandleVPTxs, disclosedJson_of. fold (disclosures_of E txn).
    rewrite Hp. reflexivity. }
  split; [exact Hvp|]. split; [|exact Hkind].
  unfold Txs. rewrite Htxs. cbn [Txs_loop Nat.eqb]. rewrite Hvp. reflexivity.
Qed.

Lemma HandleVPTxs_malformed_array_panics_witness :
  exists p,
    HandleVPTxs (Scenario.env []) Scenario.cp
      (Scenario.presentation [Scenario.d_alice; Scenario.d_one])
      (Scenario.block 7 [Scenario.presentation [Scenario.d_alice; Scenario.d_one];
                         Scenario.tx1])
    = ([], Panicked p)
    /\ Txs (Scenario.env []) Scenario.cp
         (Scenario.block 7 [Scenario.presentation [Scenario.d_alice; Scenario.d_one];
                            Scenario.tx1])
       = ([], Panicked p)
    /\ (p = InterfaceConversion
        \/ exists index, p = IndexOutOfRange index (Z.of_nat (length [JString "s"]))
                         /\ Z.of_nat (length [JString "s"]) <= index <= 2).
Proof.
  apply (HandleVPTxs_malformed_array_panics (Scenario.env []) Scenario.cp
           (Scenario.presentation [Scenario.d_alice; Scenario.d_one])
           _ [Scenario.tx1] 1 Scenario.d_one [("name", JString "Alice")]
           (Ref.lit "[" ++ [Ref.dquote] ++ Ref.lit "s" ++ [Ref.dquote] ++ Ref.lit "]")
           [JString "s"]).
  - reflexivity.
  - vm_compute. reflexivity.
  - constructor; [|constructor]. do 2 eexists. repeat split; reflexivity.
  - vm_compute. reflexivity.
  - vm_compute. reflexivity.
  - left. cbn. lia.
Defined.

(** X16.  The bytes that are hashed determine both the serialized claim
    set and the height: two salted byte strings are equal only for equal
    claim bytes and equal heights. *)
Theorem finalBytes_of_inj (j1 j2 : bytes) (h1 h2 : Z) :
  GoInt.is_int h1 -> GoInt.is_int h2 ->
  finalBytes_of j1 h1 = finalBytes_of j2 h2 -> j1 = j2 /\ h1 = h2.
Proof.
  intros H1 H2 Heq. unfold finalBytes_of in Heq.
  apply app_inj_2 in Heq as [-> Hsalt]; [|reflexivity].
  split; [reflexivity|].
  apply (f_equal Uint64) in Hsalt.
  rewrite !Uint64_PutUint64 in Hsalt
    by (unfold GoInt.uint, GoInt.two64; apply Z.mod_pos_bound; lia).
  apply uint_inj_on_int; assumption.
Qed.

Lemma finalBytes_of_inj_witness :
  Ref.lit "{}" = Ref.lit "{}" /\ 7 = 7.
Proof.
  apply (finalBytes_of_inj (Ref.lit "{}") (Ref.lit "{}") 7 7).
  - vm_compute. split; [discriminate | reflexivity].
  - vm_compute. split; [discriminate | reflexivity].
  - reflexivity.
Defined.

(** X17.  [HandleVPTxs] issues no call to the node or the service, and
    when it returns it returns either a transaction and a nil error or no
    transaction and an error: never both, never neither. *)
Theorem HandleVPTxs_result_xor (E : Env) (cp : Node) (txn : bytes)
    (block : ResultBlock) (tr : list event) (r : option Transaction)
    (err : option error) :
  HandleVPTxs E cp txn block = (tr, Returned (r, err)) ->
  tr = [] /\ ((is_Some r /\ err = None) \/ (r = None /\ is_Some err)).
Proof.
  unfold HandleVPTxs. pose proof (disclosedJson_of_silent E txn) as Hs.
  destruct (disclosedJson_of E txn) as [t' [[m|e]| |]]; cbn in *; subst;
    try discriminate.
  - destruct (json_Marshal E m) as [jsonBytes [e|]].
    + intros [= <- <- <-]. split; [reflexivity|]. right. eauto.
    + destruct (ValAddressFromHex E _) as [valAddr [e|]];
        intros [= <- <- <-]; (split; [reflexivity|]); [right | left]; eauto.
  - intros [= <- <- <-]. split; [reflexivity|]. right. eauto.
Qed.

Lemma HandleVPTxs_result_xor_witness :
  exists r,
    HandleVPTxs (Scenario.env []) Scenario.cp
      (Scenario.presentation [Scenario.d_alice]) (Scenario.block 7 [])
    = ([], Returned (r, None))
    /\ is_Some r.
Proof.
  assert (Hex : exists r,
            HandleVPTxs (Scenario.env []) Scenario.cp
              (Scenario.presentation [Scenario.d_alice]) (Scenario.block 7 [])
            = ([], Returned (r, None)))
    by (eexists; vm_compute; reflexivity).
  destruct Hex as [r Hr]. exists r. split; [exact Hr|].
  destruct (HandleVPTxs_result_xor _ _ _ _ _ _ _ Hr) as [_ [[Hs _]|[_ [e He]]]];
    [exact Hs | discriminate He].
Defined.

(** The digest has 32 bytes. *)
Lemma be_bytes_length (n : nat) (v : Z) : length (SHA256.be_bytes n v) = n.
Proof.
  revert v. induction n as [|n IH]; intros v; [reflexivity|].
  cbn [SHA256.be_bytes]. rewrite length_app, IH. cbn. lia.
Qed.

Lemma round_length (s : list Z) (kw : Z * Z) : length (SHA256.round s kw) = length s.
Proof.
  unfold SHA256.round.
  destruct s as [|a [|b [|c [|d [|e [|f [|g [|h [|x s]]]]]]]]]; reflexivity.
Qed.

Lemma fold_round_length (l : list (Z * Z)) (s : list Z) :
  length (fold_left SHA256.round l s) = length s.
Proof.
  revert s. induction l as [|kw l IH]; intros s; [reflexivity|].
  cbn [fold_left]. rewrite IH. apply round_length.
Qed.

Lemma compress_length (h : list Z) (block : bytes) :
  length (SHA256.compress h block) = length h.
Proof.
  unfold SHA256.compress. rewrite length_map, length_combine, fold_round_length. lia.
Qed.

Lemma blocks_length (n : nat) (h : list Z) (b : bytes) :
  length (SHA256.blocks n h b) = length h.
Proof.
  revert h b. induction n as [|n IH]; intros h b; [reflexivity|].
  cbn [SHA256.blocks]. rewrite IH. apply compress_length.
Qed.

Lemma Sum256_length (msg : bytes) : length (SHA256.Sum256 msg) = 32%nat.
Proof.
  unfold SHA256.Sum256.
  assert (H : forall l : list Z, length (concat (map (SHA256.be_bytes 4) l))
                                 = (4 * length l)%nat).
  { induction l as [|x l IH]; [reflexivity|].
    cbn [map concat]. rewrite length_app, be_bytes_length, IH. cbn [length]. lia. }
  rewrite H, blocks_length. reflexivity.
Qed.

Lemma hex_digit_upper (n : Z) : is_hex_upper (hex_digit n) = true.
Proof.
  unfold hex_digit.
  destruct n as [|p|p]; try reflexivity.
  do 4 (destruct p as [p|p|]; try reflexivity).
Qed.

Lemma fmt_X_shape (bz : bytes) :
  String.length (fmt_X bz) = (2 * length bz)%nat
  /\ string_forall is_hex_upper (fmt_X bz) = true.
Proof.
  induction bz as [|b bz [IHl IHc]]; [split; reflexivity|].
  cbn [fmt_X String.length string_forall length].
  rewrite IHl, IHc, !hex_digit_upper. split; [lia | reflexivity].
Qed.

(** X18.  The identifier of every transaction returned by [HandleVPTxs]
    is a text of exactly 64 characters, each one of 0-9 and A-F. *)
Theorem TxHash_shape (E : Env) (cp : Node) (txn : bytes) (block : ResultBlock)
    (t : Transaction) (err : option error) (tr : list event) :
  HandleVPTxs E cp txn block = (tr, Returned (Some t, err)) ->
  exists hash,
    Transaction_TxHash t = Some hash
    /\ String.length hash = 64%nat
    /\ string_forall is_hex_upper hash = true.
Proof.
  intros H. destruct (HandleVPTxs_success E cp txn block t err tr H)
    as (m & jsonBytes & _ & _ & _ & Hh & _ & _).
  eexists. split; [exact Hh|].
  destruct (fmt_X_shape (SHA256.Sum256 (jsonBytes ++ PutUint64
              (GoInt.uint (Height (Block_Header (ResultBlock_Block block)))))))
    as [Hl Hc].
  rewrite Sum256_length in Hl. auto.
Qed.

Lemma TxHash_shape_witness :
  exists t hash,
    HandleVPTxs (Scenario.env []) Scenario.cp
      (Scenario.presentation [Scenario.d_alice]) (Scenario.block 7 [])
    = ([], Returned (Some t, None))
    /\ Transaction_TxHash t = Some hash
    /\ String.length hash = 64%nat
    /\ string_forall is_hex_upper hash = true.
Proof.
  assert (Hex : exists t,
            HandleVPTxs (Scenario.env []) Scenario.cp
              (Scenario.presentation [Scenario.d_alice]) (Scenario.block 7 [])
            = ([], Returned (Some t, None)))
    by (eexists; vm_compute; reflexivity).
  destruct Hex as [t Ht].
  destruct (TxHash_shape _ _ _ _ _ _ _ Ht) as (hash & Hh & Hl & Hc).
  exists t, hash. auto.
Defined.

(** X19.  The hash by which [Txs] looks a transaction up is a text of
    exactly 64 characters, each one of 0-9 and A-F. *)
Theorem lookup_hash_shape (tmTx : bytes) :
  String.length (fmt_X (Tx_Hash tmTx)) = 64%nat
  /\ string_forall is_hex_upper (fmt_X (Tx_Hash tmTx)) = true.
Proof.
  destruct (fmt_X_shape (Tx_Hash tmTx)) as [Hl Hc].
  unfold Tx_Hash in *. rewrite Sum256_length in Hl. auto.
Qed.

Lemma foldl_insert_Permutation (es1 es2 : list (string * JSON)) :
  es1 ≡ₚ es2 -> forall m : gmap string JSON,
  NoDup es1.*1 ->
  foldl (fun acc e => <[e.1 := e.2]> acc) m es1
  = foldl (fun acc e => <[e.1 := e.2]> acc) m es2.
Proof.
  induction 1 as [|x l l' Hp IH|x y l|l l' l'' Hp1 IH1 Hp2 IH2]; intros m Hnd.
  - reflexivity.
  - cbn. apply IH. cbn in Hnd. apply NoDup_cons in Hnd as [_ Hnd]. exact Hnd.
  - cbn. cbn in Hnd. apply NoDup_cons in Hnd as [Hnotin _].
    rewrite insert_insert_ne; [reflexivity|].
    intros Heq. apply Hnotin. rewrite Heq. left.
  - rewrite IH1 by exact Hnd. apply IH2. rewrite <- Hp1. exact Hnd.
Qed.

Lemma disclosedJson_of_entries (E : Env) (txn : bytes) (es : list (string * JSON)) :
  Forall2 (disclosure_entry E) (disclosures_of E txn) es ->
  disclosedJson_of E txn
  = ([], Returned (inl (<["@type" := JString VP_TYPE]>
                          (foldl (fun acc e => <[e.1 := e.2]> acc) ∅ es)))).
Proof.
  intros Hes. unfold disclosedJson_of. fold (disclosures_of E txn).
  rewrite <- (app_nil_r (disclosures_of E txn)).
  rewrite (compile_disclosures_entries E _ [] es ∅ Hes). reflexivity.
Qed.

(** X20.  Two presentations whose disclosures decode to the same claims
    with pairwise different names, in any order and with any salts, give
    the same claim set and, for the same block, the same result of
    [HandleVPTxs], identifier included. *)
Theorem HandleVPTxs_order_irrelevant (E : Env) (cp : Node) (txn1 txn2 : bytes)
    (block : ResultBlock) (es1 es2 : list (string * JSON)) :
  Forall2 (disclosure_entry E) (disclosures_of E txn1) es1 ->
  Forall2 (disclosure_entry E) (disclosures_of E txn2) es2 ->
  es1 ≡ₚ es2 ->
  NoDup es1.*1 ->
  disclosedJson_of E txn1 = disclosedJson_of E txn2
  /\ HandleVPTxs E cp txn1 block = HandleVPTxs E cp txn2 block.
Proof.
  intros H1 H2 Hperm Hnd.
  assert (Heq : disclosedJson_of E txn1 = disclosedJson_of E txn2).
  { rewrite (disclosedJson_of_entries E txn1 es1 H1).
    rewrite (disclosedJson_of_entries E txn2 es2 H2).
    rewrite (foldl_insert_Permutation es1 es2 Hperm ∅ Hnd). reflexivity. }
  split; [exact Heq|]. unfold HandleVPTxs. rewrite Heq. reflexivity.
Qed.

Lemma HandleVPTxs_order_irrelevant_witness :
  disclosedJson_of (Scenario.env [])
    (Scenario.presentation [Scenario.d_alice; Scenario.d_four])
  = disclosedJson_of (Scenario.env [])
      (Scenario.presentation [Scenario.d_four; Scenario.d_alice])
  /\ HandleVPTxs (Scenario.env []) Scenario.cp
       (Scenario.presentation [Scenario.d_alice; Scenario.d_four]) (Scenario.block 7 [])
     = HandleVPTxs (Scenario.env []) Scenario.cp
         (Scenario.presentation [Scenario.d_four; Scenario.d_alice]) (Scenario.block 7 []).
Proof.
  assert (Ha : disclosure_entry (Scenario.env []) Scenario.d_alice
                 ("name", JString "Alice"))
    by (do 2 eexists; repeat split; vm_compute; reflexivity).
  assert (Hf : disclosure_entry (Scenario.env []) Scenario.d_four ("n", JString "v"))
    by (do 2 eexists; repeat split; vm_compute; reflexivity).
  assert (H1 : disclosures_of (Scenario.env [])
                 (Scenario.presentation [Scenario.d_alice; Scenario.d_four])
               = [Scenario.d_alice; Scenario.d_four]) by (vm_compute; reflexivity).
  assert (H2 : disclosures_of (Scenario.env [])
                 (Scenario.presentation [Scenario.d_four; Scenario.d_alice])
               = [Scenario.d_four; Scenario.d_alice]) by (vm_compute; reflexivity).
  apply (HandleVPTxs_order_irrelevant (Scenario.env []) Scenario.cp _ _ _
           [("name", JString "Alice"); ("n", JString "v")]
           [("n", JString "v"); ("name", JString "Alice")]).
  - rewrite H1. repeat constructor; assumption.
  - rewrite H2. repeat constructor; assumption.
  - apply Permutation_swap.
  - cbn. apply NoDup_cons. split; [|apply NoDup_singleton].
    rewrite list_elem_of_singleton. discriminate.
Defined.

(** X21.  Every transaction returned by [HandleVPTxs] is unsigned (no
    signature, no signer, an empty fee), reports no gas, carries one
    message of type [VP_TYPE] whose bytes are the serialized claim set in
    all three places it appears, has the memo "Verifiable Presentation",
    the height of the block, and one event [message] whose attribute
    [proposer] is the address derived from the proposer of the block. *)
Theorem HandleVPTxs_unsigned_shape (E : Env) (cp : Node) (txn : bytes)
    (block : ResultBlock) (t : Transaction) (err : option error) (tr : list event) :
  HandleVPTxs E cp txn block = (tr, Returned (Some t, err)) ->
  exists jsonBytes valAddr tx txResponse sdkTxResponse sdkTx sdkTxBody txBody,
    ValAddressFromHex E (fmt_X (ProposerAddress (Block_Header (ResultBlock_Block block))))
      = (valAddr, None)
    /\ Transaction_Tx t = Some tx
    /\ Transaction_TxResponse t = Some txResponse
    /\ TxResponse_Tx txResponse = Some tx
    /\ TxResponse_TxResponse txResponse = Some sdkTxResponse
    (* unsigned, no fee, no gas *)
    /\ Tx_AuthInfo tx
       = Some {| AuthInfo_SignerInfos := [];
                 AuthInfo_Fee := Some {| Fee_Amount := []; Fee_GasLimit := 0 |} |}
    /\ Tx_Tx tx = Some sdkTx /\ sdktx_Signatures sdkTx = []
    /\ TxResponse_GasWanted txResponse = 0 /\ TxResponse_GasUsed txResponse = 0
    (* one message, the same bytes everywhere *)
    /\ sdktx_Body sdkTx = Some sdkTxBody
    /\ sdkTxBody = {| sdktx_Memo := "Verifiable Presentation";
                      sdktx_Messages := [{| TypeUrl := VP_TYPE; Value := jsonBytes |}] |}
    /\ sdk_Tx sdkTxResponse = Some {| TypeUrl := VP_TYPE; Value := jsonBytes |}
    /\ Tx_Body tx = Some txBody
    /\ TxBody_TxBody txBody = Some sdkTxBody
    /\ (exists msg, TxBody_Messages txBody = [msg]
                    /\ GetBytes msg = jsonBytes /\ GetType msg = VP_TYPE
                    /\ GetIndex msg = VP_MSG_INDEX)
    (* the height of the block, and its proposer *)
    /\ sdk_Height sdkTxResponse = block_height block
    /\ TxResponse_Height txResponse = GoInt.uint (block_height block)
    /\ TxBody_TimeoutHeight txBody = GoInt.uint (block_height block)
    /\ sdk_Events sdkTxResponse
       = [{| Event_Type := "message";
             Attributes := [{| Key := "proposer";
                               EventAttribute_Value := ValAddress_String E valAddr |}] |}].
Proof.
  unfold HandleVPTxs.
  destruct (disclosedJson_of E txn) as [t' [[m|e]| |]]; cbn; try discriminate.
  destruct (json_Marshal E m) as [jsonBytes [e|]]; cbn; [discriminate|].
  destruct (ValAddressFromHex E _) as [valAddr [e|]] eqn:Hval; cbn; [discriminate|].
  intros [= _ <- _].
  exists jsonBytes, valAddr. do 6 eexists.
  cbn. repeat (split; [reflexivity|]). split; [|repeat split; reflexivity].
  eexists. repeat split; reflexivity.
Qed.

Lemma HandleVPTxs_unsigned_shape_witness :
  exists t tx,
    HandleVPTxs (Scenario.env []) Scenario.cp
      (Scenario.presentation [Scenario.d_alice]) (Scenario.block 7 [])
    = ([], Returned (Some t, None))
    /\ Transaction_Tx t = Some tx
    /\ Tx_AuthInfo tx
       = Some {| AuthInfo_SignerInfos := [];
                 AuthInfo_Fee := Some {| Fee_Amount := []; Fee_GasLimit := 0 |} |}.
Proof.
  assert (Hex : exists t,
            HandleVPTxs (Scenario.env []) Scenario.cp
              (Scenario.presentation [Scenario.d_alice]) (Scenario.block 7 [])
            = ([], Returned (Some t, None)))
    by (eexists; vm_compute; reflexivity).
  destruct Hex as [t Ht].
  destruct (HandleVPTxs_unsigned_shape _ _ _ _ _ _ _ Ht)
    as (jsonBytes & valAddr & tx & txResponse & sdkTxResponse & sdkTx & sdkTxBody
        & txBody & _ & Htx & _ & _ & _ & Hauth & _).
  exists t, tx. auto.
Defined.
